(** * MoviePy: the ffmpeg audio writer and the crop effect

    A shallow embedding of
    - [moviepy/audio/io/ffmpeg_audiowriter.py]: the class
      [FFMPEG_AudioWriter] (construction of the encoder invocation,
      [write_frames], [close], the context-manager protocol and the
      finalizer) and the function [ffmpeg_audiowrite];
    - [moviepy/video/fx/crop.py]: the function [crop].

    Python objects are records, attributes that may be unassigned are
    options, and the effects of the code (the file objects it shares with
    its caller, the encoder process, the calls it makes on both) are
    threaded through a state-and-exception monad whose state also keeps
    the list of the calls made so far.  The numbers of [crop] are
    Python's: [int]s of any size, and [float]s, which are IEEE 754
    doubles with their rounding.  Texts and bytes are told apart, and
    turning the second into the first can fail. *)

From Stdlib Require Import String Ascii List ZArith Lia Bool DecimalString SpecFloat.
Import ListNotations.
Open Scope string_scope.

(** ** Python strings *)

Definition nl : string := String (ascii_of_nat 10) "".

(** [needle in hay] on Python strings. *)
Fixpoint str_in (needle hay : string) : bool :=
  if prefix needle hay then true
  else match hay with
       | EmptyString => false
       | String _ rest => str_in needle rest
       end.

(** A [str] is given by its UTF-8 encoding, a [bytes] object by its
    bytes: both are strings of 8-bit characters.  Telling them apart is
    the work of [decode] and of the type [text_or_bytes] below. *)

Definition byte_in (lo hi : N) (c : ascii) : bool :=
  ((lo <=? N_of_ascii c) && (N_of_ascii c <=? hi))%N.

Definition continuation (c : ascii) : bool := byte_in 128 191 c.

(** The second byte of a sequence of three or four bytes, whose range
    depends on the first: no overlong form, no surrogate, nothing past
    U+10FFFF. *)
Definition second_of_three (c0 c1 : ascii) : bool :=
  if byte_in 224 224 c0 then byte_in 160 191 c1
  else if byte_in 237 237 c0 then byte_in 128 159 c1
  else continuation c1.

Definition second_of_four (c0 c1 : ascii) : bool :=
  if byte_in 240 240 c0 then byte_in 144 191 c1
  else if byte_in 244 244 c0 then byte_in 128 143 c1
  else continuation c1.

(** Whether bytes are well-formed UTF-8, which is when [b.decode()]
    returns. *)
Fixpoint utf8_valid (b : string) : bool :=
  match b with
  | EmptyString => true
  | String c0 r0 =>
      if byte_in 0 127 c0 then utf8_valid r0
      else
        match r0 with
        | EmptyString => false
        | String c1 r1 =>
            if byte_in 194 223 c0 then continuation c1 && utf8_valid r1
            else
              match r1 with
              | EmptyString => false
              | String c2 r2 =>
                  if byte_in 224 239 c0 then
                    second_of_three c0 c1 && continuation c2 && utf8_valid r2
                  else
                    match r2 with
                    | EmptyString => false
                    | String c3 r3 =>
                        byte_in 240 244 c0 && second_of_four c0 c1
                        && continuation c2 && continuation c3 && utf8_valid r3
                    end
              end
        end
  end.

Definition carriage_return : ascii := ascii_of_nat 13.
Definition line_feed : ascii := ascii_of_nat 10.

(** What reading in text mode makes of the ends of lines: a carriage
    return, alone or before a line feed, is read as a line feed. *)
Fixpoint universal_newlines (s : string) : string :=
  match s with
  | EmptyString => EmptyString
  | String c rest =>
      if Ascii.eqb c carriage_return then
        match rest with
        | String d rest' =>
            if Ascii.eqb d line_feed then String line_feed (universal_newlines rest')
            else String line_feed (universal_newlines rest)
        | EmptyString => String line_feed EmptyString
        end
      else String c (universal_newlines rest)
  end.

(** ["%d" % z] for a Python int. *)
Definition percent_d (z : Z) : string := NilEmpty.string_of_int (Z.to_int z).

(** [s.split(".")[-1]]: what follows the last dot, the whole of [s] when
    it has none.  [seg] is the piece read since the last dot. *)
Fixpoint last_piece (seg s : string) : string :=
  match s with
  | EmptyString => seg
  | String c rest =>
      if Ascii.eqb c "."%char then last_piece "" rest
      else last_piece (seg ++ String c "") rest
  end.

Definition split_dot_last (s : string) : string := last_piece "" s.

(** [cmd.extend(more)] on a Python list. *)
Definition extend {A : Type} (cmd more : list A) : list A := cmd ++ more.

(** ** Exceptions and results *)

Inductive exn : Type :=
| IOError (msg : string)          (* OSError and its subclasses; [msg] is [str(err)] *)
| AttributeError (msg : string)
| ValueError (msg : string)
| TypeError (msg : string)
| OverflowError (msg : string)
| UnicodeDecodeError (msg : string)
| OtherError (kind msg : string). (* an exception of any other class *)

Definition is_IOError (e : exn) : bool :=
  match e with IOError _ => true | _ => false end.

Inductive res (A : Type) : Type :=
| Ok (a : A)
| Raise (e : exn).
Arguments Ok {A} a.
Arguments Raise {A} e.

(** Sequencing of results: the first error is the outcome. *)
Definition and_then {A B : Type} (r : res A) (k : A -> res B) : res B :=
  match r with
  | Ok a => k a
  | Raise e => Raise e
  end.

(** ** The crop effect *)

Module Crop.

Local Open Scope Z_scope.

(** A frame is an array indexed by row, then by column. *)
Definition frame (A : Type) : Type := list (list A).

Record Clip : Type := { size : Z * Z }.

(** The keyword arguments of [crop], each an [int] or Python's [None]. *)
Record Args : Type := {
  x1 : option Z; y1 : option Z; x2 : option Z; y2 : option Z;
  width : option Z; height : option Z;
  x_center : option Z; y_center : option Z
}.

Definition no_args : Args :=
  {| x1 := None; y1 := None; x2 := None; y2 := None;
     width := None; height := None; x_center := None; y_center := None |}.

(** The numbers the bounds are: an [int], of any size, or a [float], an
    IEEE 754 double, which is what [width / 2] and the arithmetic with
    it give. *)
Inductive number : Type :=
| Int (z : Z)
| Float (f : spec_float).

Definition prec : Z := 53.
Definition emax : Z := 1024.

Definition num (o : option Z) : option number := option_map Int o.

(** Truth value of [None] and of a number: a zero of either kind is
    false, an infinite [float] is true. *)
Definition truthy (o : option number) : bool :=
  match o with
  | Some (Int z) => negb (z =? 0)
  | Some (Float (S754_zero _)) => false
  | Some (Float _) => true
  | None => false
  end.

Definition is_not_None {A : Type} (o : option A) : bool :=
  match o with Some _ => true | None => false end.

(** [a or b]. *)
Definition or_else (a : option number) (b : number) : number :=
  match a with
  | Some q => if truthy a then q else b
  | None => b
  end.

(** The double nearest to [m * 2 ^ e], ties to even; an [OverflowError]
    when that is beyond the largest double. *)
Definition nearest (m e : Z) (too_large : string) : res spec_float :=
  match binary_normalize prec emax m e false with
  | S754_infinity _ => Raise (OverflowError too_large)
  | f => Ok f
  end.

(** The [float] an [int] becomes in arithmetic with a [float]. *)
Definition float_of_int (z : Z) : res spec_float :=
  nearest z 0 "int too large to convert to float".

(** [z / 2] on an [int]: true division, correctly rounded. *)
Definition half (z : Z) : res spec_float :=
  nearest z (-1) "integer division result too large for a float".

(** [int(n)]: truncation towards zero. *)
Definition int (n : number) : res Z :=
  match n with
  | Int z => Ok z
  | Float (S754_zero _) => Ok 0
  | Float (S754_finite s m e) => Ok (cond_Zopp s (Z.shiftl (Zpos m) e))
  | Float (S754_infinity _) =>
      Raise (OverflowError "cannot convert float infinity to integer")
  | Float S754_nan => Raise (ValueError "cannot convert float NaN to integer")
  end.

Definition val (o : option Z) : Z := match o with Some z => z | None => 0 end.

(** Lines 49-52 (and 54-57 with the vertical arguments):
    [if width and x1 is not None: x2 = x1 + width]
    [elif width and x2 is not None: x1 = x2 - width].
    All the operands are [int]s. *)
Definition combine (a1 a2 extent : option Z) : option Z * option Z :=
  if truthy (num extent) && is_not_None a1 then (a1, Some (val a1 + val extent))
  else if truthy (num extent) && is_not_None a2 then (Some (val a2 - val extent), a2)
  else (a1, a2).

(** Lines 59-60 (and 62-63):
    [if x_center: x1, x2 = x_center - width / 2, x_center + width / 2].
    [width / 2] is a [float], and so are the difference and the sum,
    for which [x_center] is converted. *)
Definition centre (a1 a2 : option number) (extent center : option Z)
  : res (option number * option number) :=
  if truthy (num center) then
    match extent with
    | Some e =>
        and_then (half e) (fun h =>
        and_then (float_of_int (val center)) (fun c =>
        Ok (Some (Float (SFsub prec emax c h)), Some (Float (SFadd prec emax c h)))))
    | None =>
        Raise (TypeError "unsupported operand type(s) for /: 'NoneType' and 'int'")
    end
  else Ok (a1, a2).

Definition bounds : Type := number * number * number * number.

(** The four bounds [(x1, y1, x2, y2)] as they stand after line 68. *)
Definition crop_bounds (clip : Clip) (a : Args) : res bounds :=
  let '(vx1, vx2) := combine (x1 a) (x2 a) (width a) in
  let '(vy1, vy2) := combine (y1 a) (y2 a) (height a) in
  match centre (num vx1) (num vx2) (width a) (x_center a) with
  | Raise e => Raise e
  | Ok (vx1, vx2) =>
      match centre (num vy1) (num vy2) (height a) (y_center a) with
      | Raise e => Raise e
      | Ok (vy1, vy2) =>
          Ok (or_else vx1 (Int 0), or_else vy1 (Int 0),
              or_else vx2 (Int (fst (size clip))),
              or_else vy2 (Int (snd (size clip))))
      end
  end.

(** [l[start:stop]] on a sequence: negative indices count from the end
    and both ends are clamped to the sequence. *)
Definition clamp (n i : Z) : Z :=
  if i <? 0 then Z.max (i + n) 0 else Z.min i n.

Definition slice {A : Type} (l : list A) (start stop : Z) : list A :=
  let n := Z.of_nat (List.length l) in
  let lo := clamp n start in
  let hi := clamp n stop in
  firstn (Z.to_nat (hi - lo)) (skipn (Z.to_nat lo) l).

(** The indices of the slices, rows then columns, in the order in which
    [int(y1)], [int(y2)], [int(x1)], [int(x2)] are evaluated. *)
Definition indices (b : bounds) : res (Z * Z * Z * Z) :=
  let '(bx1, by1, bx2, by2) := b in
  and_then (int by1) (fun r1 =>
  and_then (int by2) (fun r2 =>
  and_then (int bx1) (fun c1 =>
  and_then (int bx2) (fun c2 => Ok (r1, r2, c1, c2))))).

(** [frame[int(y1) : int(y2), int(x1) : int(x2)]], evaluated for each
    frame that is asked for. *)
Definition crop_frame {A : Type} (b : bounds) (f : frame A) : res (frame A) :=
  and_then (indices b) (fun i =>
    let '(r1, r2, c1, c2) := i in
    Ok (map (fun row => slice row c1 c2) (slice f r1 r2))).

(** [crop] returns the clip whose frames are those of [clip] through the
    slicing function; the new clip is given by that function. *)
Definition crop {A : Type} (clip : Clip) (a : Args)
  : res (frame A -> res (frame A)) :=
  match crop_bounds clip a with
  | Raise e => Raise e
  | Ok b => Ok (crop_frame b)
  end.

(** A frame of the clip: [h] rows of [w] columns each. *)
Definition frame_of {A : Type} (clip : Clip) (f : frame A) : Prop :=
  Z.of_nat (List.length f) = snd (size clip) /\
  Forall (fun row => Z.of_nat (List.length row) = fst (size clip)) f.

(** The call [crop(clip, x2=v)], the call [crop(clip, y2=v)], and a call
    with one of its arguments changed. *)
Definition only_x2 (v : Z) : Args :=
  {| x1 := None; y1 := None; x2 := Some v; y2 := None;
     width := None; height := None; x_center := None; y_center := None |}.

Definition only_y2 (v : Z) : Args :=
  {| x1 := None; y1 := None; x2 := None; y2 := Some v;
     width := None; height := None; x_center := None; y_center := None |}.

Definition with_width (v : option Z) (a : Args) : Args :=
  {| x1 := x1 a; y1 := y1 a; x2 := x2 a; y2 := y2 a;
     width := v; height := height a;
     x_center := x_center a; y_center := y_center a |}.

Definition with_height (v : option Z) (a : Args) : Args :=
  {| x1 := x1 a; y1 := y1 a; x2 := x2 a; y2 := y2 a;
     width := width a; height := v;
     x_center := x_center a; y_center := y_center a |}.

Definition with_x_center (v : option Z) (a : Args) : Args :=
  {| x1 := x1 a; y1 := y1 a; x2 := x2 a; y2 := y2 a;
     width := width a; height := height a;
     x_center := v; y_center := y_center a |}.

Definition with_y_center (v : option Z) (a : Args) : Args :=
  {| x1 := x1 a; y1 := y1 a; x2 := x2 a; y2 := y2 a;
     width := width a; height := height a;
     x_center := x_center a; y_center := v |}.

End Crop.

(** ** The world of the audio writer *)

Definition bytes : Type := list Byte.byte.

(** What can be given as [stderr] to [Popen], and as [logfile] to the
    writer: an integer (a descriptor, or one of the constants of
    [subprocess]) or a file object, named by its entry in the store of
    file objects. *)
Inductive stream : Type :=
| IntVal (z : Z)
| FileObj (h : nat).

Definition PIPE : stream := IntVal (-1).
Definition DEVNULL : stream := IntVal (-3).

(** [a == b] on such values. *)
Definition stream_eqb (a b : stream) : bool :=
  match a, b with
  | IntVal x, IntVal y => (x =? y)%Z
  | FileObj h, FileObj k => Nat.eqb h k
  | _, _ => false
  end.

(** A file object: opened in binary mode or, as [open(path, "w+")]
    gives, in text mode, where what is read is decoded (the encoding is
    taken to be UTF-8) and its ends of lines translated.  [f_contents]
    is the bytes of the file, [f_pos] the position in them. *)
Record File : Type := {
  f_path : string;
  f_binary : bool;
  f_contents : string;
  f_pos : nat;
  f_closed : bool
}.

(** What [read] gives: a [str] in text mode, [bytes] in binary mode. *)
Inductive text_or_bytes : Type :=
| Str (s : string)
| Bytes (b : string).

Inductive pipe_end : Type := Open | Closed.

(** What the external encoder does: whether it starts, how the buffered
    pipe to its standard input answers the successive operations that
    can reach the process, which are the writes and the flush that
    closing the pipe makes ([None]: the operation goes through; past the
    end of the list every one does), the bytes it prints on its
    diagnostic stream, and its exit status. *)
Record Encoder : Type := {
  enc_start : option exn;
  enc_writes : list (option exn);
  enc_diag : string;
  enc_status : Z
}.

(** A [Popen] object: the attributes the code reads and assigns, and the
    process behind it. *)
Record Popen : Type := {
  pid : nat;
  stdin : option pipe_end;
  stderr : option pipe_end;     (* a pipe exactly when [stderr=PIPE] was asked *)
  returncode : option Z;
  p_sink : stream;              (* where the process prints its diagnostics *)
  p_writes : list (option exn);
  p_diag : string;
  p_status : Z
}.

Record popen_params : Type := {
  pp_stdout : stream;
  pp_stderr : stream;
  pp_stdin : stream;
  pp_creationflags : option Z
}.

(** The writer object.  An attribute is [None] until it is assigned;
    [proc] is [Some None] once [close] has set it to Python's [None]. *)
Record Writer : Type := {
  logfile : option stream;
  filename : option string;
  codec : option string;
  ext : option string;
  proc : option (option Popen)
}.

Definition blank : Writer :=
  {| logfile := None; filename := None; codec := None; ext := None; proc := None |}.

(** The calls made on the outside world, oldest first. *)
Inductive event : Type :=
| EvLogger (message : string)
| EvOpen (path mode : string) (h : nat)
| EvFileSeek (h : nat) (pos : nat)
| EvFileRead (h : nat)
| EvFileClose (h : nat)
| EvPopen (cmd : list string) (params : popen_params) (p : nat)
| EvStdinWrite (p : nat) (data : bytes)
| EvCommunicate (p : nat)
| EvStdinClose (p : nat)
| EvStderrClose (p : nat)
| EvWait (p : nat).

Record State : Type := {
  self : Writer;
  files : list File;
  encoder : Encoder;
  next_pid : nat;
  events : list event
}.

Definition set_self (w : Writer) (s : State) : State :=
  {| self := w; files := files s; encoder := encoder s;
     next_pid := next_pid s; events := events s |}.

Definition set_files (fs : list File) (s : State) : State :=
  {| self := self s; files := fs; encoder := encoder s;
     next_pid := next_pid s; events := events s |}.

Definition set_next_pid (n : nat) (s : State) : State :=
  {| self := self s; files := files s; encoder := encoder s;
     next_pid := n; events := events s |}.

Definition add_event (e : event) (s : State) : State :=
  {| self := self s; files := files s; encoder := encoder s;
     next_pid := next_pid s; events := events s ++ [e] |}.

(** ** The monad of the code: state and exceptions *)

Definition M (A : Type) : Type := State -> res A * State.

Definition ret {A : Type} (a : A) : M A := fun s => (Ok a, s).

Definition raise {A : Type} (e : exn) : M A := fun s => (Raise e, s).

Definition bind {A B : Type} (m : M A) (k : A -> M B) : M B :=
  fun s =>
    match m s with
    | (Ok a, s') => k a s'
    | (Raise e, s') => (Raise e, s')
    end.

Declare Scope py_scope.
Delimit Scope py_scope with py.
Notation "x <- m ;; k" := (bind m (fun x => k))
  (at level 61, m at next level, right associativity) : py_scope.
Notation "m ;; k" := (bind m (fun _ => k))
  (at level 61, right associativity) : py_scope.
Open Scope py_scope.

(** [try: body / except C as err: handler err], [C] given by [catches]. *)
Definition try_except {A : Type} (body : M A) (catches : exn -> bool)
    (handler : exn -> M A) : M A :=
  fun s =>
    match body s with
    | (Ok a, s') => (Ok a, s')
    | (Raise e, s') => if catches e then handler e s' else (Raise e, s')
    end.

Definition get : M State := fun s => (Ok s, s).
Definition modify (f : State -> State) : M unit := fun s => (Ok tt, f s).
Definition emit (e : event) : M unit := modify (add_event e).

(** Reading an attribute of [self]. *)
Definition attr {A : Type} (name : string) (field : Writer -> option A) : M A :=
  s <- get ;;
  match field (self s) with
  | Some a => ret a
  | None =>
      raise (AttributeError
               ("'FFMPEG_AudioWriter' object has no attribute '" ++ name ++ "'"))
  end.

(** Reading an attribute [name] of [self.proc]. *)
Definition proc_obj (name : string) : M Popen :=
  o <- attr "proc" proc ;;
  match o with
  | Some p => ret p
  | None =>
      raise (AttributeError ("'NoneType' object has no attribute '" ++ name ++ "'"))
  end.

Definition with_proc (o : option (option Popen)) (w : Writer) : Writer :=
  {| logfile := logfile w; filename := filename w; codec := codec w;
     ext := ext w; proc := o |}.

Definition set_proc (o : option (option Popen)) : M unit :=
  modify (fun s => set_self (with_proc o (self s)) s).

(** Changing the object [self.proc] points to. *)
Definition update_proc (p : Popen) : M unit := set_proc (Some (Some p)).

(** ** File objects *)

Definition set_nth {A : Type} (n : nat) (a : A) (l : list A) : list A :=
  firstn n l ++ match skipn n l with [] => [] | _ :: tl => a :: tl end.

Definition file_obj (h : nat) : M File :=
  s <- get ;;
  match nth_error (files s) h with
  | Some f => ret f
  | None => raise (OtherError "ReferenceError" "no such file object")
  end.

Definition put_file (h : nat) (f : File) : M unit :=
  modify (fun s => set_files (set_nth h f (files s)) s).

Definition closed_file_error : exn := ValueError "I/O operation on closed file.".

(** [open(path, "w+")]: a new, empty file open for reading and writing. *)
Definition open_w_plus (path : string) : M nat :=
  s <- get ;;
  let h := List.length (files s) in
  modify (fun s =>
    set_files (files s ++
      [{| f_path := path; f_binary := false; f_contents := ""; f_pos := 0;
          f_closed := false |}]) s) ;;
  emit (EvOpen path "w+" h) ;;
  ret h.

Definition file_seek (h : nat) (pos : nat) : M unit :=
  f <- file_obj h ;;
  if f_closed f then raise closed_file_error
  else
    put_file h {| f_path := f_path f; f_binary := f_binary f;
                  f_contents := f_contents f; f_pos := pos; f_closed := false |} ;;
    emit (EvFileSeek h pos).

(** The error of a decoding that fails; of its message, which goes on
    with the byte and the position, only the start is kept. *)
Definition decode_error : exn := UnicodeDecodeError "'utf-8' codec can't decode".

(** [b.decode()]: the text the bytes encode, when they are UTF-8. *)
Definition decode (b : string) : M string :=
  if utf8_valid b then ret b else raise decode_error.

(** [f.read()]: everything from the position to the end, as bytes in
    binary mode, decoded and with its ends of lines translated in text
    mode. *)
Definition file_read (h : nat) : M text_or_bytes :=
  f <- file_obj h ;;
  if f_closed f then raise closed_file_error
  else
    let n := String.length (f_contents f) in
    let data := substring (f_pos f) (n - f_pos f) (f_contents f) in
    put_file h {| f_path := f_path f; f_binary := f_binary f;
                  f_contents := f_contents f;
                  f_pos := Nat.max (f_pos f) n; f_closed := false |} ;;
    emit (EvFileRead h) ;;
    if f_binary f then ret (Bytes data)
    else text <- decode data ;; ret (Str (universal_newlines text)).

Definition file_close (h : nat) : M unit :=
  f <- file_obj h ;;
  put_file h {| f_path := f_path f; f_binary := f_binary f;
                f_contents := f_contents f; f_pos := f_pos f; f_closed := true |} ;;
  emit (EvFileClose h).

(** The methods [seek] and [read] of a [logfile] value: an integer has
    neither. *)
Definition logfile_seek (l : stream) (pos : nat) : M unit :=
  match l with
  | FileObj h => file_seek h pos
  | IntVal _ => raise (AttributeError "'int' object has no attribute 'seek'")
  end.

Definition logfile_read (l : stream) : M text_or_bytes :=
  match l with
  | FileObj h => file_read h
  | IntVal _ => raise (AttributeError "'int' object has no attribute 'read'")
  end.

(** ** The encoder process *)

Definition with_stdin (v : option pipe_end) (p : Popen) : Popen :=
  {| pid := pid p; stdin := v; stderr := stderr p; returncode := returncode p;
     p_sink := p_sink p; p_writes := p_writes p; p_diag := p_diag p;
     p_status := p_status p |}.

Definition with_stderr (v : option pipe_end) (p : Popen) : Popen :=
  {| pid := pid p; stdin := stdin p; stderr := v; returncode := returncode p;
     p_sink := p_sink p; p_writes := p_writes p; p_diag := p_diag p;
     p_status := p_status p |}.

Definition with_returncode (v : option Z) (p : Popen) : Popen :=
  {| pid := pid p; stdin := stdin p; stderr := stderr p; returncode := v;
     p_sink := p_sink p; p_writes := p_writes p; p_diag := p_diag p;
     p_status := p_status p |}.

Definition with_writes (v : list (option exn)) (p : Popen) : Popen :=
  {| pid := pid p; stdin := stdin p; stderr := stderr p; returncode := returncode p;
     p_sink := p_sink p; p_writes := v; p_diag := p_diag p;
     p_status := p_status p |}.

(** What the process printed lands in the file it was given as [stderr]. *)
Definition printed (sink : stream) (text : string) (s : State) : State :=
  match sink with
  | FileObj h =>
      match nth_error (files s) h with
      | Some f =>
          set_files
            (set_nth h {| f_path := f_path f; f_binary := f_binary f;
                          f_contents := f_contents f ++ text;
                          f_pos := f_pos f; f_closed := f_closed f |} (files s)) s
      | None => s
      end
  | IntVal _ => s
  end.

Definition print_to (sink : stream) (text : string) : M unit :=
  modify (printed sink text).

(** The process is waited for: the first time, it has exited, its
    diagnostics are where it printed them and its status is recorded. *)
Definition reap (p : Popen) : M Popen :=
  match returncode p with
  | Some _ => ret p
  | None =>
      print_to (p_sink p) (p_diag p) ;;
      ret (with_returncode (Some (p_status p)) p)
  end.

(** [sp.Popen(cmd, **popen_params)]. *)
Definition Popen_ (cmd : list string) (params : popen_params) : M Popen :=
  s <- get ;;
  match enc_start (encoder s) with
  | Some e => raise e
  | None =>
      let n := next_pid s in
      modify (set_next_pid (S n)) ;;
      emit (EvPopen cmd params n) ;;
      ret {| pid := n;
             stdin := if stream_eqb (pp_stdin params) PIPE then Some Open else None;
             stderr := if stream_eqb (pp_stderr params) PIPE then Some Open else None;
             returncode := None;
             p_sink := pp_stderr params;
             p_writes := enc_writes (encoder s);
             p_diag := enc_diag (encoder s);
             p_status := enc_status (encoder s) |}
  end.

(** [self.proc.stdin.write(data)].  The pipe is buffered: whether a
    write reaches the process, and fails when the process has gone, is
    for the behaviour of the encoder to say. *)
Definition stdin_write (data : bytes) : M unit :=
  p <- proc_obj "stdin" ;;
  match stdin p with
  | None => raise (AttributeError "'NoneType' object has no attribute 'write'")
  | Some Closed => raise (ValueError "write to closed file")
  | Some Open =>
      match p_writes p with
      | Some e :: rest => update_proc (with_writes rest p) ;; raise e
      | None :: rest =>
          update_proc (with_writes rest p) ;; emit (EvStdinWrite (pid p) data)
      | [] => emit (EvStdinWrite (pid p) data)
      end
  end.

(** [self.proc.stdin.close()]: on a pipe that is open, what is left in
    the buffer is flushed, which can fail as a write can, and the pipe
    is closed whether or not the flush failed; on a pipe that is closed
    already, nothing is done. *)
Definition stdin_close : M unit :=
  p <- proc_obj "stdin" ;;
  match stdin p with
  | None => raise (AttributeError "'NoneType' object has no attribute 'close'")
  | Some Closed => emit (EvStdinClose (pid p))
  | Some Open =>
      match p_writes p with
      | Some e :: rest =>
          update_proc (with_stdin (Some Closed) (with_writes rest p)) ;;
          emit (EvStdinClose (pid p)) ;;
          raise e
      | None :: rest =>
          update_proc (with_stdin (Some Closed) (with_writes rest p)) ;;
          emit (EvStdinClose (pid p))
      | [] => update_proc (with_stdin (Some Closed) p) ;; emit (EvStdinClose (pid p))
      end
  end.

(** [self.proc.stderr.close()]. *)
Definition stderr_close : M unit :=
  p <- proc_obj "stderr" ;;
  match stderr p with
  | None => raise (AttributeError "'NoneType' object has no attribute 'close'")
  | Some _ => update_proc (with_stderr (Some Closed) p) ;; emit (EvStderrClose (pid p))
  end.

(** [self.proc.wait()]. *)
Definition wait : M unit :=
  p <- proc_obj "wait" ;;
  emit (EvWait (pid p)) ;;
  p' <- reap p ;;
  update_proc p'.

(** [self.proc.communicate()]: standard input is closed, a broken pipe
    being ignored there, what is left on the captured streams is read,
    the process is waited for.  The result is the pair of what was read
    from standard output and from the diagnostic stream, as bytes,
    [None] for a stream that is not a pipe; the standard output of the
    writer's process never is. *)
Definition communicate : M (option string * option string) :=
  p <- proc_obj "communicate" ;;
  emit (EvCommunicate (pid p)) ;;
  let p := with_stdin (match stdin p with Some _ => Some Closed | None => None end) p in
  let captured :=
    match stderr p with
    | Some Open => Some (p_diag p)
    | Some Closed => Some ""
    | None => None
    end in
  let p := with_stderr (match stderr p with Some _ => Some Closed | None => None end) p in
  p' <- reap p ;;
  update_proc p' ;;
  ret (None, captured).

(** ** The writer *)

Record AudioClip : Type := {
  nchannels : Z;
  (* [iter_chunks(chunksize, quantize=True, nbytes, fps, logger)]: the
     chunks the clip yields one after the other, until it is exhausted
     or raises *)
  iter_chunks : Z -> Z -> Z -> list (res bytes)
}.

Definition assign (f : Writer -> Writer) : M unit :=
  modify (fun s => set_self (f (self s)) s).

Definition assign_logfile (v : stream) (w : Writer) : Writer :=
  {| logfile := Some v; filename := filename w; codec := codec w;
     ext := ext w; proc := proc w |}.

Definition assign_filename (v : string) (w : Writer) : Writer :=
  {| logfile := logfile w; filename := Some v; codec := codec w;
     ext := ext w; proc := proc w |}.

Definition assign_codec (v : string) (w : Writer) : Writer :=
  {| logfile := logfile w; filename := filename w; codec := Some v;
     ext := ext w; proc := proc w |}.

Definition assign_ext (v : string) (w : Writer) : Writer :=
  {| logfile := logfile w; filename := filename w; codec := codec w;
     ext := Some v; proc := proc w |}.

(** [str(err)]. *)
Definition str (e : exn) : string :=
  match e with
  | IOError m | AttributeError m | ValueError m | TypeError m
  | OverflowError m | UnicodeDecodeError m | OtherError _ m => m
  end.

(** The four remediation hints of [write_frames]. *)
Definition hint_unknown_encoder (codec : string) : string :=
  nl ++ nl ++ "The audio export failed because FFMPEG didn't find the "
  ++ "specified codec for audio encoding " ++ codec ++ ". "
  ++ "Please install this codec or change the codec when calling "
  ++ "write_videofile or write_audiofile." ++ nl ++ "For instance for mp3:" ++ nl
  ++ "   >>> write_videofile('myvid.mp4', audio_codec='libmp3lame')".

Definition hint_codec_parameters (codec ext : string) : string :=
  nl ++ nl ++ "The audio export failed, possibly because the "
  ++ "codec specified for the video " ++ codec ++ " is not compatible"
  ++ " with the given extension " ++ ext ++ ". Please specify a "
  ++ "valid 'codec' argument in write_audiofile or 'audio_codoc'"
  ++ "argument in write_videofile. This would be "
  ++ "'libmp3lame' for mp3, 'libvorbis' for ogg...".

Definition hint_bitrate : string :=
  nl ++ nl ++ "The audio export failed, possibly because the "
  ++ "bitrate you specified was too high or too low for "
  ++ "the audio codec.".

Definition hint_encoder_type : string :=
  nl ++ nl ++ "The audio export failed because the codec "
  ++ "or file extension you provided is not suitable for audio".

(** The message [write_frames] starts from (lines 117-120). *)
Definition base_error (err : exn) (filename ffmpeg_error : string) : string :=
  str err ++ nl ++ nl
  ++ "MoviePy error: FFMPEG encountered the following error while "
  ++ "writing file " ++ filename ++ ":" ++ nl ++ nl ++ " " ++ ffmpeg_error.

Definition attr_filename : M string := attr "filename" filename.

Section Writer.

(** [moviepy.config.FFMPEG_BINARY] and the name of the operating system,
    read when the modules are loaded. *)
Variable FFMPEG_BINARY : string.
Variable OS_NAME : string.

(** Modelled from the spec: [moviepy.tools.cross_platform_popen_params]
    is not part of the sources at hand.  The process is started with its
    standard input connected to a writable pipe, its standard output
    discarded and its diagnostic stream connected to the given sink or
    to a capturable pipe: the helper hands back the three settings it is
    given, and adds at most a setting of the platform's own. *)
Definition cross_platform_popen_params (p : popen_params) : popen_params :=
  if String.eqb OS_NAME "nt" then
    {| pp_stdout := pp_stdout p; pp_stderr := pp_stderr p; pp_stdin := pp_stdin p;
       pp_creationflags := Some 134217728%Z |}
  else p.

(** The invocation of the encoder (lines 67-95). *)
Definition build_cmd (filename : string) (fps_input nbytes nchannels : Z)
    (codec : string) (bitrate input_video : option string) (logfile : stream)
    (ffmpeg_params : option (list string)) : list string :=
  let cmd :=
    [ FFMPEG_BINARY;
      "-y";
      "-loglevel";
      if stream_eqb logfile PIPE then "error" else "info";
      "-f";
      "s" ++ percent_d (8 * nbytes) ++ "le";
      "-acodec";
      "pcm_s" ++ percent_d (8 * nbytes) ++ "le";
      "-ar";
      percent_d fps_input;
      "-ac";
      percent_d nchannels;
      "-i";
      "-" ] in
  let cmd :=
    match input_video with
    | None => extend cmd ["-vn"]
    | Some v => extend cmd ["-i"; v; "-vcodec"; "copy"]
    end in
  let cmd := extend cmd (["-acodec"; codec] ++ ["-ar"; percent_d fps_input]) in
  let cmd := extend cmd ["-strict"; "-2"] in
  let cmd :=
    match bitrate with
    | Some b => extend cmd ["-ab"; b]
    | None => cmd
    end in
  let cmd :=
    match ffmpeg_params with
    | Some ps => extend cmd ps
    | None => cmd
    end in
  extend cmd [filename].

(** [FFMPEG_AudioWriter.__init__]. *)
Definition __init__ (filename : string) (fps_input nbytes nchannels : Z)
    (codec : string) (bitrate input_video : option string)
    (logfile : option stream) (ffmpeg_params : option (list string)) : M unit :=
  let logfile := match logfile with None => PIPE | Some l => l end in
  assign (assign_logfile logfile) ;;
  assign (assign_filename filename) ;;
  assign (assign_codec codec) ;;
  fn <- attr_filename ;;
  assign (assign_ext (split_dot_last fn)) ;;
  let cmd := build_cmd filename fps_input nbytes nchannels codec bitrate
               input_video logfile ffmpeg_params in
  let popen_params :=
    cross_platform_popen_params
      {| pp_stdout := DEVNULL; pp_stderr := logfile; pp_stdin := PIPE;
         pp_creationflags := None |} in
  p <- Popen_ cmd popen_params ;;
  set_proc (Some (Some p)).

(** [FFMPEG_AudioWriter(...)]: a new object, then [__init__] on it. *)
Definition FFMPEG_AudioWriter (filename : string) (fps_input nbytes nchannels : Z)
    (codec : string) (bitrate input_video : option string)
    (logfile : option stream) (ffmpeg_params : option (list string)) : M unit :=
  modify (set_self blank) ;;
  __init__ filename fps_input nbytes nchannels codec bitrate input_video
    logfile ffmpeg_params.

(** The [if]/[elif] chain of lines 122-152. *)
Definition add_hint (error ffmpeg_error : string) : M string :=
  if str_in "Unknown encoder" ffmpeg_error then
    c <- attr "codec" codec ;;
    ret (error ++ hint_unknown_encoder c)
  else if str_in "incorrect codec parameters ?" ffmpeg_error then
    c <- attr "codec" codec ;;
    e <- attr "ext" ext ;;
    ret (error ++ hint_codec_parameters c e)
  else if str_in "bitrate not specified" ffmpeg_error then
    ret (error ++ hint_bitrate)
  else if str_in "Invalid encoder type" ffmpeg_error then
    ret (error ++ hint_encoder_type)
  else ret error.

(** The error of looking for a [str] in [bytes]. *)
Definition bytes_not_str : exn :=
  TypeError "a bytes-like object is required, not 'str'".

(** The [except IOError as err] clause of [write_frames].  The message
    of lines 117-120 can be formatted whatever [ffmpeg_error] is; the
    first test of line 122 looks for a [str] in it, which is a
    [TypeError] when it is [bytes]. *)
Definition on_write_error (err : exn) : M unit :=
  out <- communicate ;;
  ffmpeg_error <-
    match snd out with
    | Some captured => text <- decode captured ;; ret (Str text)
    | None =>
        l <- attr "logfile" logfile ;;
        logfile_seek l 0 ;;
        logfile_read l
    end ;;
  fn <- attr_filename ;;
  match ffmpeg_error with
  | Str text =>
      error <- add_hint (base_error err fn text) text ;;
      raise (IOError error)
  | Bytes _ => raise bytes_not_str
  end.

(** [write_frames]; [frames_array] is given as its bytes. *)
Definition write_frames (frames_array : bytes) : M unit :=
  try_except (stdin_write frames_array) is_IOError on_write_error.

(** [close]. *)
Definition close : M unit :=
  s <- get ;;
  match proc (self s) with
  | Some (Some _) =>
      stdin_close ;;
      p <- proc_obj "stdin" ;;
      update_proc (with_stdin None p) ;;
      p <- proc_obj "stderr" ;;
      match stderr p with
      | Some _ =>
          stderr_close ;;
          p <- proc_obj "stderr" ;;
          update_proc (with_stderr None p)
      | None => ret tt
      end ;;
      wait ;;
      set_proc (Some None)
  | _ => ret tt
  end.

Definition __del__ : M unit := close.

Definition __enter__ : M Writer := s <- get ;; ret (self s).

(** [__exit__(self, *_)]: whatever it is given, it closes and returns
    [None]. *)
Definition __exit__ (exc : option exn) : M unit := close.

(** [with self as v: body v].  [__exit__] returns [None], so an exception
    of the body is raised again once [__exit__] is done. *)
Definition with_ {A : Type} (body : Writer -> M A) : M A :=
  v <- __enter__ ;;
  fun s =>
    match body v s with
    | (Ok a, s') =>
        match __exit__ None s' with
        | (Ok _, s'') => (Ok a, s'')
        | (Raise e, s'') => (Raise e, s'')
        end
    | (Raise e, s') =>
        match __exit__ (Some e) s' with
        | (Ok _, s'') => (Raise e, s'')
        | (Raise e', s'') => (Raise e', s'')
        end
    end.

(** ** The session *)

(** [for chunk in chunks: writer.write_frames(chunk)]. *)
Fixpoint write_all (chunks : list (res bytes)) : M unit :=
  match chunks with
  | [] => ret tt
  | Ok chunk :: rest => write_frames chunk ;; write_all rest
  | Raise e :: _ => raise e
  end.

(** The body of [ffmpeg_audiowrite]. *)
Definition ffmpeg_audiowrite (clip : AudioClip) (filename : string)
    (fps nbytes buffersize : Z) (codec : string) (bitrate : option string)
    (write_logfile : bool) (ffmpeg_params : option (list string)) : M unit :=
  logfile <-
    (if write_logfile then h <- open_w_plus (filename ++ ".log") ;; ret (Some h)
     else ret None) ;;
  emit (EvLogger ("MoviePy - Writing audio in " ++ filename)) ;;
  FFMPEG_AudioWriter filename fps nbytes (nchannels clip) codec bitrate None
    (option_map FileObj logfile) ffmpeg_params ;;
  write_all (iter_chunks clip buffersize nbytes fps) ;;
  close ;;
  (if write_logfile then
     match logfile with Some h => file_close h | None => ret tt end
   else ret tt) ;;
  emit (EvLogger "MoviePy - Done.").

End Writer.

(** ** Notions used in the statements *)

(** [needle] occurs in [hay]. *)
Definition contains (needle hay : string) : Prop :=
  exists before after, hay = before ++ needle ++ after.

(** The classification as the design notes put it: an ordered table of
    markers and hints, read from the top, the first marker found in the
    text decides. *)
Definition hint_table (codec ext : string) : list (string * string) :=
  [ ("Unknown encoder", hint_unknown_encoder codec);
    ("incorrect codec parameters ?", hint_codec_parameters codec ext);
    ("bitrate not specified", hint_bitrate);
    ("Invalid encoder type", hint_encoder_type) ].

Definition first_match (table : list (string * string)) (text : string)
  : option (string * string) :=
  find (fun entry => str_in (fst entry) text) table.

Definition classified (codec ext base text : string) : string :=
  match first_match (hint_table codec ext) text with
  | Some entry => base ++ snd entry
  | None => base
  end.

(** A writer whose construction went through and that has not been
    closed: all its attributes are assigned, [p] is its process, started
    with [stderr=lf]. *)
Definition live (s : State) (p : Popen) (lf : stream) (fn c e : string) : Prop :=
  self s = {| logfile := Some lf; filename := Some fn; codec := Some c;
              ext := Some e; proc := Some (Some p) |} /\
  p_sink p = lf /\
  (stream_eqb lf PIPE = true -> stderr p <> None) /\
  (stream_eqb lf PIPE = false -> stderr p = None) /\
  stdin p <> None.

(** The next write on the standard input of [p] fails with the I/O error
    whose text is [m]. *)
Definition write_fails (p : Popen) (m : string) : Prop :=
  stdin p = Some Open /\ returncode p = None /\ stderr p <> Some Closed /\
  exists rest, p_writes p = Some (IOError m) :: rest.

(** The diagnostics can be looked for: they are captured on the pipe,
    or they go to a file object of the store that is open. *)
Definition sink_present (s : State) (p : Popen) : Prop :=
  stderr p <> None \/
  exists h f, p_sink p = FileObj h /\ nth_error (files s) h = Some f /\
              f_closed f = false.

(** The bytes the writer finds when it looks for the diagnostics, once
    the encoder has exited: what was captured on the pipe, or all of the
    file the encoder printed to. *)
Definition diagnostic_bytes (s : State) (p : Popen) : string :=
  match stderr p, p_sink p with
  | Some _, _ => p_diag p
  | None, FileObj h =>
      match nth_error (files s) h with
      | Some f => f_contents f ++ p_diag p
      | None => ""
      end
  | None, IntVal _ => ""
  end.

(** The diagnostics are readable as a text: they are captured on the
    pipe, or they go to a file object of the store that is open in text
    mode, and in either case their bytes decode. *)
Definition sink_readable (s : State) (p : Popen) : Prop :=
  (stderr p <> None \/
   exists h f, p_sink p = FileObj h /\ nth_error (files s) h = Some f /\
               f_closed f = false /\ f_binary f = false) /\
  utf8_valid (diagnostic_bytes s p) = true.

(** The text of the diagnostics, as the writer reads it: the bytes
    decoded, with the ends of lines as text mode gives them when they
    are read from a file. *)
Definition diagnostics (s : State) (p : Popen) : string :=
  match stderr p with
  | Some _ => diagnostic_bytes s p
  | None => universal_newlines (diagnostic_bytes s p)
  end.

(** The calls [close] makes on a process it releases. *)
Definition release_calls (p : Popen) : list event :=
  EvStdinClose (pid p)
  :: match stderr p with Some _ => [EvStderrClose (pid p)] | None => [] end
  ++ [EvWait (pid p)].

(** Closing the standard input of [p] goes through: the pipe is closed
    already, or the flush of what is left in its buffer is accepted. *)
Definition stdin_closes (p : Popen) : Prop :=
  stdin p = Some Closed \/ (stdin p = Some Open /\ hd None (p_writes p) = None).

(** Closing the standard input of [p] fails with [e]: the pipe is open
    and the flush is answered by [e]. *)
Definition stdin_close_fails (p : Popen) (e : exn) : Prop :=
  stdin p = Some Open /\ hd None (p_writes p) = Some e.

(** The process object after such a failure: the pipe is closed all the
    same. *)
Definition half_closed (p : Popen) : Popen :=
  with_stdin (Some Closed) (with_writes (tl (p_writes p)) p).

(** [n] calls of a method in a row. *)
Fixpoint calls (n : nat) (m : M unit) : M unit :=
  match n with
  | O => ret tt
  | S k => m ;; calls k m
  end.

(** The writer holds no process: [proc] is [None], or was never assigned. *)
Definition no_handle (s : State) : Prop :=
  proc (self s) = None \/ proc (self s) = Some None.

(** The writer is in a state its own code leaves it in: it holds no
    process, or a process whose standard input attribute is a pipe. *)
Definition sound (s : State) : Prop :=
  forall p, proc (self s) = Some (Some p) -> stdin p <> None.

(** The states of a writer: those a construction ends in, whether it
    raised or not, and those its methods lead to from there. *)
Inductive reachable (FFMPEG_BINARY OS_NAME : string) : State -> Prop :=
| after_init : forall filename fps_input nbytes nchannels codec bitrate
      input_video logfile ffmpeg_params s0,
    reachable FFMPEG_BINARY OS_NAME
      (snd (FFMPEG_AudioWriter FFMPEG_BINARY OS_NAME filename fps_input nbytes
              nchannels codec bitrate input_video logfile ffmpeg_params s0))
| after_write_frames : forall s data,
    reachable FFMPEG_BINARY OS_NAME s ->
    reachable FFMPEG_BINARY OS_NAME (snd (write_frames data s))
| after_close : forall s,
    reachable FFMPEG_BINARY OS_NAME s ->
    reachable FFMPEG_BINARY OS_NAME (snd (close s)).

Definition count_event (f : event -> bool) (l : list event) : nat :=
  List.length (filter f l).

Definition is_wait (p : nat) (e : event) : bool :=
  match e with EvWait q => Nat.eqb p q | _ => false end.

Definition is_stdin_close (p : nat) (e : event) : bool :=
  match e with EvStdinClose q => Nat.eqb p q | _ => false end.

Definition is_file_close (h : nat) (e : event) : bool :=
  match e with EvFileClose k => Nat.eqb h k | _ => false end.

Definition is_popen (e : event) : bool :=
  match e with EvPopen _ _ _ => true | _ => false end.

(** The process object [Popen] gives when the encoder starts with
    [stderr=lf]. *)
Definition started (s : State) (lf : stream) : Popen :=
  {| pid := next_pid s;
     stdin := Some Open;
     stderr := if stream_eqb lf PIPE then Some Open else None;
     returncode := None;
     p_sink := lf;
     p_writes := enc_writes (encoder s);
     p_diag := enc_diag (encoder s);
     p_status := enc_status (encoder s) |}.

(** The object a constructor leaves behind: with its process when the
    encoder started, without the attribute [proc] when it did not. *)
Definition constructed (s : State) (filename codec : string)
    (logfile : option stream) : Writer :=
  let lf := match logfile with None => PIPE | Some l => l end in
  {| logfile := Some lf; filename := Some filename; codec := Some codec;
     ext := Some (split_dot_last filename);
     proc := match enc_start (encoder s) with
             | None => Some (Some (started s lf))
             | Some _ => None
             end |}.

(** The process object once [communicate] is through. *)
Definition exited (p : Popen) : Popen :=
  {| pid := pid p;
     stdin := Some Closed;
     stderr := match stderr p with Some _ => Some Closed | None => None end;
     returncode := Some (p_status p);
     p_sink := p_sink p;
     p_writes := p_writes p;
     p_diag := p_diag p;
     p_status := p_status p |}.

(** The calls by which [write_frames] reads the diagnostics back from a
    file: none when they were captured on the pipe. *)
Definition failure_reads (p : Popen) : list event :=
  match stderr p, p_sink p with
  | None, FileObj h => [EvFileSeek h 0; EvFileRead h]
  | _, _ => []
  end.

(** The file objects are those of [s], open or closed as they were. *)
Definition files_kept (s s' : State) : Prop :=
  List.length (files s') = List.length (files s) /\
  forall h f, nth_error (files s) h = Some f ->
    exists f', nth_error (files s') h = Some f' /\
               f_closed f' = f_closed f /\ f_path f' = f_path f.

(** The calls a loop of writes makes: writes, and on a failure the
    collection of the diagnostics. *)
Definition is_loop_event (e : event) : bool :=
  match e with
  | EvStdinWrite _ _ | EvCommunicate _ | EvFileSeek _ _ | EvFileRead _ => true
  | _ => false
  end.

(** A live writer that has had no failure yet: the standard input of its
    process is open, the process has not been waited for, and its
    diagnostics can be looked for. *)
Definition ready (s : State) (p : Popen) (lf : stream) (fn c e : string) : Prop :=
  live s p lf fn c e /\ stdin p = Some Open /\ returncode p = None /\
  stderr p <> Some Closed /\ sink_present s p.

(** From [s] to [s'] the writer has kept its process, [p] then [p'],
    and only the calls [evs] of a loop of writes were made: no file
    object was opened or closed, nothing was started or waited for. *)
Definition steady (s s' : State) (p p' : Popen) (evs : list event) : Prop :=
  self s' = with_proc (Some (Some p')) (self s) /\
  pid p' = pid p /\
  stdin p' <> None /\
  (stderr p' = None <-> stderr p = None) /\
  events s' = (events s ++ evs)%list /\
  forallb is_loop_event evs = true /\
  files_kept s s' /\
  encoder s' = encoder s /\
  next_pid s' = next_pid s.

(** The state in which the session constructs its writer: the log file,
    if one is asked for, has been opened, and the start has been notified. *)
Definition session_start (filename : string) (write_logfile : bool) (s : State)
  : State :=
  add_event (EvLogger ("MoviePy - Writing audio in " ++ filename))
    (if write_logfile then
       add_event (EvOpen (filename ++ ".log") "w+" (List.length (files s)))
         (set_files
            (files s ++
               [{| f_path := filename ++ ".log"; f_binary := false;
                   f_contents := ""; f_pos := 0; f_closed := false |}]) s)
     else s).

(** The state in which the session starts its loop of writes: the
    writer has been constructed. *)
Definition loop_start (bin os : string) (clip : AudioClip) (filename : string)
    (fps nbytes : Z) (codec : string) (bitrate : option string)
    (write_logfile : bool) (ffmpeg_params : option (list string)) (s : State)
  : State :=
  snd (FFMPEG_AudioWriter bin os filename fps nbytes (nchannels clip) codec
         bitrate None
         (if write_logfile then Some (FileObj (List.length (files s))) else None)
         ffmpeg_params (session_start filename write_logfile s)).


(** The calls of the session up to the start of the encoder. *)
Definition opening (bin os filename : string) (fps nbytes nch : Z)
    (codec : string) (bitrate : option string) (write_logfile : bool)
    (ffmpeg_params : option (list string)) (s : State) : list event :=
  let sink := if write_logfile then FileObj (List.length (files s)) else PIPE in
  ((if write_logfile
    then [EvOpen (filename ++ ".log") "w+" (List.length (files s))] else [])
   ++ [EvLogger ("MoviePy - Writing audio in " ++ filename);
       EvPopen
         (build_cmd bin filename fps nbytes nch codec bitrate None sink
            ffmpeg_params)
         (cross_platform_popen_params os
            {| pp_stdout := DEVNULL; pp_stderr := sink; pp_stdin := PIPE;
               pp_creationflags := None |})
         (next_pid s)])%list.

(** Whether a string has a dot, the separator of [filename.split(".")]. *)
Fixpoint has_dot (s : string) : bool :=
  match s with
  | EmptyString => false
  | String c rest => Ascii.eqb c "."%char || has_dot rest
  end.

(** An encoder behaviour that accepts every write and the flush at the
    closing of its standard input. *)
Definition accepts_all (script : list (option exn)) : bool :=
  forallb (fun o => match o with None => true | Some _ => false end) script.

(** The calls [crop(clip, x1=a, y1=b, x2=c, y2=d)] and [crop(clip, x1=a)]. *)
Definition rectangle (a b c d : Z) : Crop.Args :=
  {| Crop.x1 := Some a; Crop.y1 := Some b; Crop.x2 := Some c; Crop.y2 := Some d;
     Crop.width := None; Crop.height := None;
     Crop.x_center := None; Crop.y_center := None |}.

Definition only_x1 (a : Z) : Crop.Args :=
  {| Crop.x1 := Some a; Crop.y1 := None; Crop.x2 := None; Crop.y2 := None;
     Crop.width := None; Crop.height := None;
     Crop.x_center := None; Crop.y_center := None |}.

(** [part] is a run of consecutive elements of [whole]. *)
Definition run_of {A : Type} (whole part : list A) : Prop :=
  exists before after, whole = (before ++ part ++ after)%list.

(** ** Sample runs *)

(** An encoder that does not know the codec it is asked for: it exits at
    once, and the first write on its standard input finds the pipe broken. *)
Definition unknown_codec : Encoder :=
  {| enc_start := None;
     enc_writes := [Some (IOError "[Errno 32] Broken pipe")];
     enc_diag := "Unknown encoder 'not_a_real_codec'";
     enc_status := 1 |}.

(** An encoder whose diagnostics hold two of the markers. *)
Definition two_markers : Encoder :=
  {| enc_start := None;
     enc_writes := [Some (IOError "[Errno 32] Broken pipe")];
     enc_diag := "Unknown encoder 'not_a_real_codec', incorrect codec parameters ?";
     enc_status := 1 |}.

(** An encoder that exits while the writer still has frames for it: the
    first chunk stays in the buffer of the pipe, and the next operation
    that reaches the process, a write or the flush of the closing,
    finds the pipe broken. *)
Definition exits_early : Encoder :=
  {| enc_start := None;
     enc_writes := [None; Some (IOError "[Errno 32] Broken pipe")];
     enc_diag := "Conversion failed!";
     enc_status := 1 |}.


(** An encoder that takes all it is given. *)
Definition healthy : Encoder :=
  {| enc_start := None; enc_writes := []; enc_diag := ""; enc_status := 0 |}.

(** A program that cannot be started: [Popen] raises
    [FileNotFoundError], an [OSError]. *)
Definition missing_binary : Encoder :=
  {| enc_start := Some (IOError "[Errno 2] No such file or directory: 'ffmpeg'");
     enc_writes := []; enc_diag := ""; enc_status := 127 |}.

Definition world (enc : Encoder) : State :=
  {| self := blank; files := []; encoder := enc; next_pid := 0; events := [] |}.

(** A chunk that does not fit in the buffer of the pipe: writing it
    reaches the process. *)
Definition full_buffer : bytes := repeat Byte.x00 (128 * 128).

Definition large_chunks : AudioClip :=
  {| nchannels := 2;
     iter_chunks := fun _ _ _ => [Ok full_buffer; Ok full_buffer; Ok full_buffer] |}.

Definition one_chunk : AudioClip :=
  {| nchannels := 2; iter_chunks := fun _ _ _ => [Ok [Byte.x00; Byte.x01]] |}.

Definition three_chunks : AudioClip :=
  {| nchannels := 2;
     iter_chunks := fun _ _ _ =>
       [Ok [Byte.x00; Byte.x01]; Ok [Byte.x02; Byte.x03]; Ok [Byte.x04; Byte.x05]] |}.


(** * Properties *)

(** ** Strings *)

Lemma prefix_iff_app (n h : string) :
  prefix n h = true <-> exists rest, h = n ++ rest.
Proof.
  revert h; induction n as [|c n IH]; intros h; simpl.
  - split; [intros _; exists h; reflexivity | intros _; destruct h; reflexivity].
  - destruct h as [|d h].
    + split; [discriminate | intros [rest H]; discriminate].
    + simpl. destruct (ascii_dec c d) as [->|Hcd].
      * rewrite IH. split; intros [rest H]; exists rest.
        -- now rewrite H.
        -- now inversion H.
      * split; [discriminate | intros [rest H]; inversion H; congruence].
Qed.

Lemma str_in_unfold (needle hay : string) :
  str_in needle hay =
  if prefix needle hay then true
  else match hay with
       | EmptyString => false
       | String _ rest => str_in needle rest
       end.
Proof. destruct hay; reflexivity. Qed.

Lemma str_in_iff_contains (needle hay : string) :
  str_in needle hay = true <-> contains needle hay.
Proof.
  unfold contains. induction hay as [|c hay IH]; rewrite str_in_unfold.
  - destruct (prefix needle "") eqn:P.
    + split; [intros _ | intros _; reflexivity].
      apply prefix_iff_app in P. destruct P as [rest P].
      exists "", rest. exact P.
    + split; [discriminate|]. intros (a & b & H).
      destruct a; [|discriminate]. simpl in H.
      assert (prefix needle "" = true) by (apply prefix_iff_app; eauto).
      congruence.
  - destruct (prefix needle (String c hay)) eqn:P.
    + split; [intros _ | intros _; reflexivity].
      apply prefix_iff_app in P. destruct P as [rest P].
      exists "", rest. exact P.
    + rewrite IH. split.
      * intros (a & b & H). exists (String c a), b. simpl. now rewrite H.
      * intros (a & b & H). destruct a as [|d a].
        -- simpl in H.
           assert (prefix needle (String c hay) = true)
             by (apply prefix_iff_app; eauto).
           congruence.
        -- simpl in H. inversion H. eauto.
Qed.

Lemma str_app_assoc (a b c : string) : (a ++ b) ++ c = a ++ b ++ c.
Proof. induction a; simpl; congruence. Qed.

Lemma str_app_nil_r (a : string) : a ++ "" = a.
Proof. induction a; simpl; congruence. Qed.


Lemma contains_end (needle before : string) : contains needle (before ++ needle).
Proof. exists before, "". now rewrite str_app_nil_r. Qed.



(** ** The crop effect *)

Lemma slice_whole (A : Type) (l : list A) :
  Crop.slice l 0 (Z.of_nat (List.length l)) = l.
Proof.
  unfold Crop.slice, Crop.clamp. simpl.
  destruct (Z.ltb_spec (Z.of_nat (List.length l)) 0); [lia|].
  rewrite Z.min_id, (Z.min_l 0) by lia. simpl.
  rewrite Z.sub_0_r, Nat2Z.id. apply firstn_all.
Qed.

Lemma slice_nothing (A : Type) (l : list A) (i : Z) : Crop.slice l i i = [].
Proof.
  unfold Crop.slice. rewrite Z.sub_diag. reflexivity.
Qed.

Lemma crop_frame_ints (A : Type) (c1 r1 c2 r2 : Z) (f : Crop.frame A) :
  Crop.crop_frame (Crop.Int c1, Crop.Int r1, Crop.Int c2, Crop.Int r2) f
  = Ok (map (fun row => Crop.slice row c1 c2) (Crop.slice f r1 r2)).
Proof. reflexivity. Qed.

Lemma crop_frame_whole (A : Type) (clip : Crop.Clip) (f : Crop.frame A) :
  Crop.frame_of clip f ->
  Crop.crop_frame
    (Crop.Int 0, Crop.Int 0, Crop.Int (fst (Crop.size clip)),
     Crop.Int (snd (Crop.size clip))) f = Ok f.
Proof.
  intros [rows cols]. rewrite crop_frame_ints. f_equal.
  rewrite <- rows, slice_whole. clear rows.
  induction cols as [|row f' Hrow _ IH]; [reflexivity|].
  simpl. f_equal; [rewrite <- Hrow; apply slice_whole | exact IH].
Qed.

Lemma truthy_num (o : option Z) :
  Crop.truthy (Crop.num o)
  = match o with Some v => negb (v =? 0)%Z | None => false end.
Proof. destruct o; reflexivity. Qed.

Lemma combine_without_extent (a1 a2 extent : option Z) :
  Crop.truthy (Crop.num extent) = false -> Crop.combine a1 a2 extent = (a1, a2).
Proof. intros H. unfold Crop.combine. rewrite H. reflexivity. Qed.

Lemma centre_without_centre (a1 a2 : option Crop.number) (extent center : option Z) :
  Crop.truthy (Crop.num center) = false -> Crop.centre a1 a2 extent center = Ok (a1, a2).
Proof. intros H. unfold Crop.centre. rewrite H. reflexivity. Qed.

Lemma centre_without_extent (a1 a2 : option Crop.number) (center : option Z) :
  Crop.truthy (Crop.num center) = true ->
  Crop.centre a1 a2 None center
  = Raise (TypeError "unsupported operand type(s) for /: 'NoneType' and 'int'").
Proof. intros H. unfold Crop.centre. rewrite H. reflexivity. Qed.

(** C10, as the code has it.  [crop(clip, x2=0)] and [crop(clip, y2=0)]
    keep the whole width and the whole height of every frame, as
    [crop(clip)] does, because a zero [x2] or [y2] is replaced by the
    size of the clip.  The combination of [width] with [x1] and [x2] (of
    [height] with [y1] and [y2]) leaves a zero extent aside as it does a
    missing one, and the centring leaves a zero [x_center] or [y_center]
    aside as it does a missing one.  A zero [width] or [height] is as
    good as a missing one only as long as the centre that goes with it
    is zero or missing: with a centre that is not zero, a missing extent
    is a [TypeError], and a zero extent is used, both bounds being the
    centre itself, which replaces what [x1] and [x2] were. *)
Theorem crop_zero_arguments (A : Type) (clip : Crop.Clip) :
  let whole := (Crop.Int 0, Crop.Int 0, Crop.Int (fst (Crop.size clip)),
                Crop.Int (snd (Crop.size clip))) in
  Crop.crop_bounds clip (Crop.only_x2 0) = Ok whole /\
  Crop.crop_bounds clip (Crop.only_y2 0) = Ok whole /\
  Crop.crop_bounds clip Crop.no_args = Ok whole /\
  (exists g, Crop.crop (A:=A) clip (Crop.only_x2 0) = Ok g /\
             forall f, Crop.frame_of clip f -> g f = Ok f) /\
  (exists g, Crop.crop (A:=A) clip (Crop.only_y2 0) = Ok g /\
             forall f, Crop.frame_of clip f -> g f = Ok f) /\
  (forall a1 a2, Crop.combine a1 a2 (Some 0%Z) = Crop.combine a1 a2 None) /\
  (forall a1 a2 extent,
      Crop.centre a1 a2 extent (Some 0%Z) = Crop.centre a1 a2 extent None) /\
  (forall a, Crop.crop_bounds clip (Crop.with_x_center (Some 0%Z) a)
             = Crop.crop_bounds clip (Crop.with_x_center None a)) /\
  (forall a, Crop.crop_bounds clip (Crop.with_y_center (Some 0%Z) a)
             = Crop.crop_bounds clip (Crop.with_y_center None a)) /\
  (forall a, Crop.truthy (Crop.num (Crop.x_center a)) = false ->
             Crop.crop_bounds clip (Crop.with_width (Some 0%Z) a)
             = Crop.crop_bounds clip (Crop.with_width None a)) /\
  (forall a, Crop.truthy (Crop.num (Crop.y_center a)) = false ->
             Crop.crop_bounds clip (Crop.with_height (Some 0%Z) a)
             = Crop.crop_bounds clip (Crop.with_height None a)) /\
  (forall a, Crop.truthy (Crop.num (Crop.x_center a)) = true ->
             Crop.crop_bounds clip (Crop.with_width None a)
             = Raise (TypeError "unsupported operand type(s) for /: 'NoneType' and 'int'")) /\
  (forall a1 a2 xc sign m e,
      xc <> 0%Z -> Crop.float_of_int xc = Ok (S754_finite sign m e) ->
      Crop.centre a1 a2 (Some 0%Z) (Some xc)
      = Ok (Some (Crop.Float (S754_finite sign m e)),
            Some (Crop.Float (S754_finite sign m e)))).
Proof.
  intros whole.
  repeat match goal with |- _ /\ _ => split end; try reflexivity.
  - exists (Crop.crop_frame whole). split; [reflexivity|].
    intros f Hf. now apply crop_frame_whole.
  - exists (Crop.crop_frame whole). split; [reflexivity|].
    intros f Hf. now apply crop_frame_whole.
  - intros a Hc. unfold Crop.crop_bounds, Crop.with_width.
    cbn [Crop.x1 Crop.x2 Crop.y1 Crop.y2 Crop.width Crop.height
         Crop.x_center Crop.y_center].
    rewrite !(combine_without_extent (Crop.x1 a)) by reflexivity.
    destruct (Crop.combine (Crop.y1 a) (Crop.y2 a) (Crop.height a)) as [vy1 vy2].
    rewrite !(centre_without_centre _ _ _ (Crop.x_center a)) by exact Hc.
    reflexivity.
  - intros a Hc. unfold Crop.crop_bounds, Crop.with_height.
    cbn [Crop.x1 Crop.x2 Crop.y1 Crop.y2 Crop.width Crop.height
         Crop.x_center Crop.y_center].
    rewrite !(combine_without_extent (Crop.y1 a)) by reflexivity.
    destruct (Crop.combine (Crop.x1 a) (Crop.x2 a) (Crop.width a)) as [vx1 vx2].
    destruct (Crop.centre (Crop.num vx1) (Crop.num vx2) (Crop.width a)
                (Crop.x_center a)) as [[ux1 ux2]|x]; [|reflexivity].
    rewrite !(centre_without_centre _ _ _ (Crop.y_center a)) by exact Hc.
    reflexivity.
  - intros a Hc. unfold Crop.crop_bounds, Crop.with_width.
    cbn [Crop.x1 Crop.x2 Crop.y1 Crop.y2 Crop.width Crop.height
         Crop.x_center Crop.y_center].
    rewrite (combine_without_extent (Crop.x1 a)) by reflexivity.
    destruct (Crop.combine (Crop.y1 a) (Crop.y2 a) (Crop.height a)) as [vy1 vy2].
    rewrite centre_without_extent by exact Hc. reflexivity.
  - intros a1 a2 xc sign m e Hxc Hfloat. unfold Crop.centre.
    rewrite truthy_num.
    replace (xc =? 0)%Z with false by (symmetry; now apply Z.eqb_neq).
    cbn [negb Crop.val]. rewrite Hfloat. reflexivity.
Qed.

Lemma crop_zero_arguments_witness :
  let clip := {| Crop.size := (3, 2)%Z |} in
  (exists g,
     Crop.crop (A:=nat) clip (Crop.only_x2 0) = Ok g /\
     g [[1; 2; 3]; [4; 5; 6]] = Ok [[1; 2; 3]; [4; 5; 6]]) /\
  Crop.centre None None (Some 0%Z) (Some 300%Z)
  = Ok (Some (Crop.Float (S754_finite false 5277655813324800 (-44))),
        Some (Crop.Float (S754_finite false 5277655813324800 (-44)))).
Proof.
  intros clip.
  destruct (crop_zero_arguments nat clip)
    as (_ & _ & _ & (g & Hg & Hf) & _ & _ & _ & _ & _ & _ & _ & _ & Hzero).
  split.
  - exists g. split; [exact Hg|]. apply Hf.
    split; [reflexivity|]. repeat constructor.
  - apply Hzero; [discriminate | vm_compute; reflexivity].
Defined.

(** Against C10 as it is stated: a zero [width] is not left aside when
    [x_center] is given.  [crop(clip, x_center=2, width=0)] keeps no
    column at all, where the same call without [width] is a
    [TypeError]. *)
Lemma crop_zero_width_centred :
  let clip := {| Crop.size := (4, 2)%Z |} in
  let a := Crop.with_x_center (Some 2%Z) Crop.no_args in
  (exists b g,
     Crop.crop_bounds clip (Crop.with_width (Some 0%Z) a) = Ok b /\
     Crop.indices b = Ok (0, 2, 2, 2)%Z /\
     Crop.crop (A:=nat) clip (Crop.with_width (Some 0%Z) a) = Ok g /\
     g [[1; 2; 3; 4]; [5; 6; 7; 8]] = Ok [[]; []]) /\
  Crop.crop_bounds clip (Crop.with_width None a)
  = Raise (TypeError "unsupported operand type(s) for /: 'NoneType' and 'int'") /\
  Crop.crop_bounds clip (Crop.with_width (Some 0%Z) a)
  <> Crop.crop_bounds clip (Crop.with_width None a).
Proof.
  split; [|split; [reflexivity | vm_compute; discriminate]].
  do 2 eexists. split; [vm_compute; reflexivity|].
  split; [reflexivity|]. split; reflexivity.
Qed.

(** ** Lists and file objects *)

Lemma set_nth_nil (A : Type) (n : nat) (a : A) : set_nth n a [] = [].
Proof. destruct n; reflexivity. Qed.

Lemma set_nth_O (A : Type) (a x : A) (l : list A) : set_nth 0 a (x :: l) = a :: l.
Proof. reflexivity. Qed.

Lemma set_nth_S (A : Type) (n : nat) (a x : A) (l : list A) :
  set_nth (S n) a (x :: l) = x :: set_nth n a l.
Proof. reflexivity. Qed.

Lemma length_set_nth (A : Type) (n : nat) (a : A) (l : list A) :
  List.length (set_nth n a l) = List.length l.
Proof.
  revert n; induction l as [|x l IH]; intros n.
  - now rewrite set_nth_nil.
  - destruct n; [reflexivity|]. rewrite set_nth_S. simpl. now rewrite IH.
Qed.

Lemma nth_error_set_nth_same (A : Type) (n : nat) (a : A) (l : list A) :
  n < List.length l -> nth_error (set_nth n a l) n = Some a.
Proof.
  revert n; induction l as [|x l IH]; intros n Hn; simpl in Hn; [lia|].
  destruct n; [reflexivity|]. rewrite set_nth_S. simpl. apply IH. lia.
Qed.

Lemma nth_error_set_nth_other (A : Type) (n k : nat) (a : A) (l : list A) :
  n <> k -> nth_error (set_nth n a l) k = nth_error l k.
Proof.
  revert n k; induction l as [|x l IH]; intros n k Hnk.
  - now rewrite set_nth_nil.
  - destruct n, k; try reflexivity; try congruence.
    rewrite set_nth_S. simpl. apply IH. congruence.
Qed.

Lemma set_nth_twice (A : Type) (n : nat) (a b : A) (l : list A) :
  set_nth n a (set_nth n b l) = set_nth n a l.
Proof.
  revert n; induction l as [|x l IH]; intros n.
  - now rewrite !set_nth_nil.
  - destruct n; [reflexivity|]. rewrite !set_nth_S. now rewrite IH.
Qed.

Lemma nth_error_in_range (A : Type) (l : list A) (n : nat) (a : A) :
  nth_error l n = Some a -> n < List.length l.
Proof. intros H. apply nth_error_Some. congruence. Qed.

Lemma substring_whole (s : string) : substring 0 (String.length s) s = s.
Proof. induction s; simpl; congruence. Qed.

Lemma files_kept_refl (s : State) : files_kept s s.
Proof. split; [reflexivity|]. intros h f H. exists f. auto. Qed.

Lemma files_kept_trans (s1 s2 s3 : State) :
  files_kept s1 s2 -> files_kept s2 s3 -> files_kept s1 s3.
Proof.
  intros [L12 K12] [L23 K23]. split; [congruence|].
  intros h f H. destruct (K12 h f H) as (f2 & H2 & C2 & P2).
  destruct (K23 h f2 H2) as (f3 & H3 & C3 & P3).
  exists f3. repeat split; congruence.
Qed.

(** ** Construction *)

Lemma popen_params_streams (os : string) (p : popen_params) :
  pp_stdout (cross_platform_popen_params os p) = pp_stdout p /\
  pp_stderr (cross_platform_popen_params os p) = pp_stderr p /\
  pp_stdin (cross_platform_popen_params os p) = pp_stdin p.
Proof.
  unfold cross_platform_popen_params.
  destruct (String.eqb os "nt"); repeat split.
Qed.

Lemma construct_run (bin os fn : string) (fps nb nch : Z) (c : string)
    (br iv : option string) (lf : option stream) (ps : option (list string))
    (s : State) :
  let sink := match lf with None => PIPE | Some l => l end in
  FFMPEG_AudioWriter bin os fn fps nb nch c br iv lf ps s =
  match enc_start (encoder s) with
  | None =>
      (Ok tt,
       {| self := constructed s fn c lf;
          files := files s; encoder := encoder s; next_pid := S (next_pid s);
          events := events s ++
            [EvPopen (build_cmd bin fn fps nb nch c br iv sink ps)
               (cross_platform_popen_params os
                  {| pp_stdout := DEVNULL; pp_stderr := sink; pp_stdin := PIPE;
                     pp_creationflags := None |})
               (next_pid s)] |})
  | Some e => (Raise e, set_self (constructed s fn c lf) s)
  end.
Proof.
  destruct s as [w fs enc np evs]. unfold constructed. simpl.
  unfold FFMPEG_AudioWriter, __init__, Popen_, cross_platform_popen_params.
  destruct (String.eqb os "nt"), (enc_start enc) eqn:E;
    unfold bind, modify, get, assign, attr_filename, attr, emit, set_proc, ret, raise;
    simpl; rewrite ?E; simpl; reflexivity.
Qed.

(** ** The invocation of the encoder *)

Lemma stream_eqb_eq (a b : stream) : stream_eqb a b = true <-> a = b.
Proof.
  destruct a as [x|h], b as [y|k]; simpl.
  - rewrite Z.eqb_eq. split; congruence.
  - split; discriminate.
  - split; discriminate.
  - rewrite Nat.eqb_eq. split; congruence.
Qed.

Lemma build_cmd_closed_form (bin fn : string) (fps nb nch : Z) (c : string)
    (br iv : option string) (sink : stream) (ps : option (list string)) :
  build_cmd bin fn fps nb nch c br iv sink ps =
  ([bin; "-y"; "-loglevel"; if stream_eqb sink PIPE then "error" else "info"]
   ++ ["-f"; ("s" ++ percent_d (8 * nb) ++ "le")%string;
       "-acodec"; ("pcm_s" ++ percent_d (8 * nb) ++ "le")%string;
       "-ar"; percent_d fps; "-ac"; percent_d nch]
   ++ ["-i"; "-"]
   ++ match iv with
      | Some v => ["-i"; v; "-vcodec"; "copy"]
      | None => ["-vn"]
      end
   ++ ["-acodec"; c; "-ar"; percent_d fps; "-strict"; "-2"]
   ++ match br with Some b => ["-ab"; b] | None => [] end
   ++ match ps with Some l => l | None => [] end
   ++ [fn])%list.
Proof.
  unfold build_cmd, extend.
  destruct iv, br, ps; simpl; rewrite <- ?app_assoc; reflexivity.
Qed.

(** C5.  The invocation a construction starts the encoder with lists,
    in this order: the program and its general flags; the format of the
    raw input (little-endian PCM of the sample width, sample rate,
    channel count); the marker [-i -]; the second input and the copy of
    its video stream when an input video is given, [-vn] otherwise; the
    output codec, the output sample rate and the relaxed compliance; the
    bitrate when there is one; the pass-through parameters as they were
    given; the output file. *)
Theorem invocation_order (bin os fn : string) (fps nb nch : Z) (c : string)
    (br iv : option string) (lf : option stream) (ps : option (list string))
    (s : State) :
  enc_start (encoder s) = None ->
  exists level params,
    events (snd (FFMPEG_AudioWriter bin os fn fps nb nch c br iv lf ps s))
    = (events s ++
      [EvPopen
         ([bin; "-y"; "-loglevel"; level]
          ++ ["-f"; ("s" ++ percent_d (8 * nb) ++ "le")%string;
              "-acodec"; ("pcm_s" ++ percent_d (8 * nb) ++ "le")%string;
              "-ar"; percent_d fps; "-ac"; percent_d nch]
          ++ ["-i"; "-"]
          ++ match iv with
             | Some v => ["-i"; v; "-vcodec"; "copy"]
             | None => ["-vn"]
             end
          ++ ["-acodec"; c; "-ar"; percent_d fps; "-strict"; "-2"]
          ++ match br with Some b => ["-ab"; b] | None => [] end
          ++ match ps with Some l => l | None => [] end
          ++ [fn])%list
         params (next_pid s)])%list.
Proof.
  intros start. rewrite construct_run, start. simpl.
  rewrite build_cmd_closed_form. do 2 eexists. reflexivity.
Qed.

Lemma invocation_order_witness :
  exists level params,
    events (snd (FFMPEG_AudioWriter "ffmpeg" "posix" "out.mp4" 44100 2 2
                   "libmp3lame" (Some "128k") (Some "in.mp4") None
                   (Some ["-q:a"; "2"]) (world healthy)))
    = [EvPopen
         ["ffmpeg"; "-y"; "-loglevel"; level;
          "-f"; "s16le"; "-acodec"; "pcm_s16le"; "-ar"; "44100"; "-ac"; "2";
          "-i"; "-"; "-i"; "in.mp4"; "-vcodec"; "copy";
          "-acodec"; "libmp3lame"; "-ar"; "44100"; "-strict"; "-2";
          "-ab"; "128k"; "-q:a"; "2"; "out.mp4"]
         params 0].
Proof.
  exact (invocation_order "ffmpeg" "posix" "out.mp4" 44100 2 2 "libmp3lame"
           (Some "128k") (Some "in.mp4") None (Some ["-q:a"; "2"])
           (world healthy) eq_refl).
Defined.

(** C9.  The verbosity of the encoder follows the choice of the sink: the
    level after [-loglevel] is "error" when no sink is given, the
    diagnostics then being captured on a pipe of the writer's own (as
    they are when the constant [PIPE] itself is passed), and "info" when
    the caller gives a sink, to which the diagnostics then go. *)
Theorem loglevel_by_sink (bin os fn : string) (fps nb nch : Z) (c : string)
    (br iv : option string) (lf : option stream) (ps : option (list string))
    (s : State) :
  enc_start (encoder s) = None ->
  exists cmd params p,
    events (snd (FFMPEG_AudioWriter bin os fn fps nb nch c br iv lf ps s))
    = (events s ++ [EvPopen cmd params (next_pid s)])%list /\
    proc (self (snd (FFMPEG_AudioWriter bin os fn fps nb nch c br iv lf ps s)))
    = Some (Some p) /\
    nth_error cmd 2 = Some "-loglevel" /\
    ((nth_error cmd 3 = Some "error" /\ pp_stderr params = PIPE /\
      stderr p = Some Open /\ (lf = None \/ lf = Some PIPE))
     \/
     (nth_error cmd 3 = Some "info" /\ stderr p = None /\
      exists sink, lf = Some sink /\ sink <> PIPE /\
                   pp_stderr params = sink /\ p_sink p = sink)).
Proof.
  intros start. rewrite construct_run, start. simpl.
  rewrite build_cmd_closed_form.
  do 3 eexists. split; [reflexivity|].
  unfold constructed. rewrite start. simpl. split; [reflexivity|].
  split; [reflexivity|].
  destruct (popen_params_streams os
              {| pp_stdout := DEVNULL;
                 pp_stderr := match lf with None => PIPE | Some l => l end;
                 pp_stdin := PIPE; pp_creationflags := None |})
    as (_ & err & _).
  rewrite err. simpl.
  destruct lf as [sink|]; simpl.
  - destruct (stream_eqb sink PIPE) eqn:E.
    + apply stream_eqb_eq in E. subst sink. left. auto.
    + right. repeat split; trivial. exists sink. repeat split; trivial.
      intros ->. discriminate.
  - left. auto.
Qed.

Lemma loglevel_by_sink_witness :
  exists cmd params p,
    events (snd (FFMPEG_AudioWriter "ffmpeg" "posix" "out.ogg" 44100 2 2
                   "libvorbis" None None (Some (FileObj 0)) None (world healthy)))
    = (events (world healthy) ++ [EvPopen cmd params 0])%list /\
    proc (self (snd (FFMPEG_AudioWriter "ffmpeg" "posix" "out.ogg" 44100 2 2
                   "libvorbis" None None (Some (FileObj 0)) None (world healthy))))
    = Some (Some p) /\
    nth_error cmd 2 = Some "-loglevel" /\
    ((nth_error cmd 3 = Some "error" /\ pp_stderr params = PIPE /\
      stderr p = Some Open /\
      (Some (FileObj 0) = None \/ Some (FileObj 0) = Some PIPE))
     \/
     (nth_error cmd 3 = Some "info" /\ stderr p = None /\
      exists sink, Some (FileObj 0) = Some sink /\ sink <> PIPE /\
                   pp_stderr params = sink /\ p_sink p = sink)).
Proof.
  exact (loglevel_by_sink "ffmpeg" "posix" "out.ogg" 44100 2 2 "libvorbis"
           None None (Some (FileObj 0)) None (world healthy) eq_refl).
Defined.

(** ** The methods, run *)

(** Running the monad on a state: its operations are replaced by their
    definitions. *)
Ltac run :=
  repeat (progress (unfold attr_filename, attr, proc_obj, update_proc, set_proc,
            assign, emit, modify, get, ret, raise, bind; cbv beta iota)).

Lemma with_proc_same (w : Writer) : with_proc (proc w) w = w.
Proof. destruct w; reflexivity. Qed.

Lemma with_writes_same (p : Popen) : with_writes (p_writes p) p = p.
Proof. destruct p; reflexivity. Qed.

Lemma set_self_same (s : State) : set_self (self s) s = s.
Proof. destruct s; reflexivity. Qed.

Lemma proc_obj_run (name : string) (s : State) (p : Popen) :
  proc (self s) = Some (Some p) -> proc_obj name s = (Ok p, s).
Proof.
  intros H. run. rewrite H. reflexivity.
Qed.

Lemma file_seek_run (s : State) (h pos : nat) (f : File) :
  nth_error (files s) h = Some f -> f_closed f = false ->
  file_seek h pos s =
  (Ok tt,
   add_event (EvFileSeek h pos)
     (set_files
        (set_nth h {| f_path := f_path f; f_binary := f_binary f;
                      f_contents := f_contents f;
                      f_pos := pos; f_closed := false |} (files s)) s)).
Proof.
  intros H C. unfold file_seek, file_obj. run. rewrite H, C. reflexivity.
Qed.

Lemma file_close_run (s : State) (h : nat) (f : File) :
  nth_error (files s) h = Some f ->
  file_close h s =
  (Ok tt,
   add_event (EvFileClose h)
     (set_files
        (set_nth h {| f_path := f_path f; f_binary := f_binary f;
                      f_contents := f_contents f;
                      f_pos := f_pos f; f_closed := true |} (files s)) s)).
Proof.
  intros H. unfold file_close, file_obj. run. rewrite H. reflexivity.
Qed.

Lemma reap_run (p : Popen) (s : State) :
  reap p s =
  match returncode p with
  | Some _ => (Ok p, s)
  | None => (Ok (with_returncode (Some (p_status p)) p),
             printed (p_sink p) (p_diag p) s)
  end.
Proof. unfold reap. destruct (returncode p); reflexivity. Qed.

Lemma printed_kept (sink : stream) (text : string) (s : State) :
  files_kept s (printed sink text s) /\
  self (printed sink text s) = self s /\
  events (printed sink text s) = events s /\
  encoder (printed sink text s) = encoder s /\
  next_pid (printed sink text s) = next_pid s.
Proof.
  unfold printed. destruct sink as [z|h].
  - repeat split; auto. intros h f H. eauto.
  - destruct (nth_error (files s) h) as [f|] eqn:E.
    + repeat split; simpl; auto using length_set_nth.
      intros k g H. destruct (Nat.eq_dec h k) as [<-|ne].
      * rewrite nth_error_set_nth_same by (eapply nth_error_in_range; eauto).
        eexists. split; [reflexivity|]. simpl. split; congruence.
      * rewrite nth_error_set_nth_other by assumption. eauto.
    + repeat split; auto. intros k g H. eauto.
Qed.

Lemma add_hint_run (s : State) (c e error text : string) :
  codec (self s) = Some c -> ext (self s) = Some e ->
  add_hint error text s = (Ok (classified c e error text), s).
Proof.
  intros Hc He. unfold add_hint, classified, first_match, hint_table.
  simpl find.
  destruct (str_in "Unknown encoder" text).
  { run. rewrite Hc. reflexivity. }
  destruct (str_in "incorrect codec parameters ?" text).
  { run. rewrite Hc, He. reflexivity. }
  destruct (str_in "bitrate not specified" text); [reflexivity|].
  destruct (str_in "Invalid encoder type" text); reflexivity.
Qed.

Lemma write_frames_accepted (s : State) (p : Popen) (data : bytes) :
  proc (self s) = Some (Some p) -> stdin p = Some Open ->
  hd None (p_writes p) = None ->
  write_frames data s =
  (Ok tt,
   add_event (EvStdinWrite (pid p) data)
     (set_self (with_proc (Some (Some (with_writes (tl (p_writes p)) p))) (self s)) s)).
Proof.
  intros Hp Hin Hw. unfold write_frames, try_except, stdin_write.
  unfold bind at 1. rewrite (proc_obj_run _ _ _ Hp). rewrite Hin.
  destruct (p_writes p) as [|[e|] rest] eqn:W; simpl in Hw; try discriminate.
  - unfold emit, modify. simpl. rewrite <- W, with_writes_same, <- Hp.
    now rewrite with_proc_same, set_self_same.
  - reflexivity.
Qed.

Lemma write_frames_other_error (s : State) (p : Popen) (e : exn)
    (rest : list (option exn)) (data : bytes) :
  proc (self s) = Some (Some p) -> stdin p = Some Open ->
  p_writes p = Some e :: rest -> is_IOError e = false ->
  write_frames data s =
  (Raise e, set_self (with_proc (Some (Some (with_writes rest p))) (self s)) s).
Proof.
  intros Hp Hin Hw He. unfold write_frames, try_except, stdin_write.
  unfold bind at 1. rewrite (proc_obj_run _ _ _ Hp). rewrite Hin, Hw.
  simpl. rewrite He. reflexivity.
Qed.
Lemma communicate_run (s : State) (p : Popen) :
  proc (self s) = Some (Some p) -> returncode p = None -> stdin p <> None ->
  communicate s =
  (Ok (None, match stderr p with
             | Some Open => Some (p_diag p)
             | Some Closed => Some ""
             | None => None
             end),
   set_self (with_proc (Some (Some (exited p))) (self s))
     (printed (p_sink p) (p_diag p) (add_event (EvCommunicate (pid p)) s))).
Proof.
  intros Hp Hrc Hin.
  destruct (printed_kept (p_sink p) (p_diag p) (add_event (EvCommunicate (pid p)) s))
    as (_ & Hself & _).
  destruct p as [n i e rc sink wr dg st]. simpl in *. subst rc.
  destruct i as [i|]; [|congruence].
  unfold communicate, reap, print_to. run. rewrite Hp.
  cbn -[printed]. rewrite Hself. cbn -[printed]. unfold exited. cbn -[printed].
  destruct e as [[|]|]; reflexivity.
Qed.
Lemma kept_set_nth (s s' : State) (h : nat) (f g : File) :
  nth_error (files s) h = Some f -> files s' = set_nth h g (files s) ->
  f_closed g = f_closed f -> f_path g = f_path f -> files_kept s s'.
Proof.
  intros Hf Hs Hc Hp. unfold files_kept. rewrite Hs. split.
  - apply length_set_nth.
  - intros k x Hk. destruct (Nat.eq_dec h k) as [<-|ne].
    + rewrite nth_error_set_nth_same by (eapply nth_error_in_range; eauto).
      exists g. repeat split; congruence.
    + rewrite nth_error_set_nth_other by assumption. eauto.
Qed.

(** The updates of records, carried out. *)
Ltac flatten :=
  cbv [add_event set_files set_self set_next_pid with_proc with_returncode
       with_stderr with_stdin with_writes
       self files encoder next_pid events
       logfile filename codec ext proc
       pid stdin stderr returncode p_sink p_writes p_diag p_status].

Ltac crunch :=
  cbn -[add_hint classified base_error nth_error set_nth utf8_valid
        universal_newlines decode_error bytes_not_str].

(** What [write_frames] does when the write fails with an I/O error and
    the diagnostics can be looked for, and which error it raises then. *)
Lemma write_frames_failure (s : State) (p : Popen) (lf : stream)
    (fn c e m : string) (data : bytes) :
  live s p lf fn c e -> write_fails p m -> sink_present s p ->
  exists x s',
    write_frames data s = (Raise x, s') /\
    self s' = with_proc (Some (Some (exited (with_writes (tl (p_writes p)) p)))) (self s) /\
    events s' = (events s ++ EvCommunicate (pid p) :: failure_reads p)%list /\
    files_kept s s' /\ encoder s' = encoder s /\ next_pid s' = next_pid s /\
    (forall h, stderr p = None -> p_sink p = FileObj h ->
       exists f', nth_error (files s') h = Some f' /\
                  f_contents f' = diagnostic_bytes s p /\
                  f_pos f' = String.length (diagnostic_bytes s p)) /\
    (sink_readable s p ->
     x = IOError (classified c e (base_error (IOError m) fn (diagnostics s p))
                    (diagnostics s p))) /\
    (utf8_valid (diagnostic_bytes s p) = false ->
     stderr p <> None \/
     (exists h f, p_sink p = FileObj h /\ nth_error (files s) h = Some f /\
                  f_binary f = false) ->
     x = decode_error) /\
    (forall h f, stderr p = None -> p_sink p = FileObj h ->
       nth_error (files s) h = Some f -> f_binary f = true -> x = bytes_not_str).
Proof.
  intros (Hself & Hsink & Hpipe & Hfile & _) (Hin & Hrc & Hcl & rest & Hw) Hread.
  destruct s as [w fs enc np evs]. simpl in Hself. subst w.
  destruct p as [n i er rc sink wr dg st]. simpl in *. subst i rc wr sink.
  destruct er as [[|]|].
  - (* captured on the pipe *)
    clear Hread Hcl.
    destruct (stream_eqb lf PIPE) eqn:E; [|specialize (Hfile eq_refl); discriminate].
    apply stream_eqb_eq in E. subst lf.
    assert (run_it : exists x,
      write_frames data
        {| self := {| logfile := Some PIPE; filename := Some fn; codec := Some c;
                      ext := Some e;
                      proc := Some (Some {| pid := n; stdin := Some Open;
                                            stderr := Some Open; returncode := None;
                                            p_sink := PIPE;
                                            p_writes := Some (IOError m) :: rest;
                                            p_diag := dg; p_status := st |}) |};
           files := fs; encoder := enc; next_pid := np; events := evs |}
      = (Raise x,
         {| self := {| logfile := Some PIPE; filename := Some fn; codec := Some c;
                       ext := Some e;
                       proc := Some (Some {| pid := n; stdin := Some Closed;
                                             stderr := Some Closed;
                                             returncode := Some st;
                                             p_sink := PIPE; p_writes := rest;
                                             p_diag := dg; p_status := st |}) |};
            files := fs; encoder := enc; next_pid := np;
            events := (evs ++ [EvCommunicate n])%list |}) /\
      x = if utf8_valid dg
          then IOError (classified c e (base_error (IOError m) fn dg) dg)
          else decode_error).
    { unfold write_frames, try_except, stdin_write, on_write_error, communicate,
        reap, print_to, decode. run. crunch. run. crunch.
      destruct (utf8_valid dg) eqn:V.
      - run. crunch. rewrite add_hint_run with (c := c) (e := e) by reflexivity.
        eexists. split; reflexivity.
      - eexists. split; reflexivity. }
    destruct run_it as (x & Hrun & Hx).
    exists x. eexists. split; [exact Hrun|].
    cbn. repeat split; try reflexivity; try discriminate.
    + intros h f H. eauto.
    + intros (_ & V). unfold diagnostic_bytes in V. simpl in V.
      rewrite V in Hx. exact Hx.
    + intros V _. unfold diagnostic_bytes in V. simpl in V.
      rewrite V in Hx. exact Hx.
  - congruence.
  - destruct Hread as [H|(h & f & Hs & Hf & Hc)]; [simpl in H; congruence|].
    simpl in Hs, Hf. subst lf. clear Hpipe Hfile Hcl.
    pose proof (nth_error_in_range _ _ _ _ Hf) as Hh.
    set (f' := {| f_path := f_path f; f_binary := f_binary f;
                  f_contents := f_contents f ++ dg;
                  f_pos := String.length (f_contents f ++ dg); f_closed := false |}).
    assert (run_it : exists x,
      write_frames data
        {| self := {| logfile := Some (FileObj h); filename := Some fn;
                      codec := Some c; ext := Some e;
                      proc := Some (Some {| pid := n; stdin := Some Open;
                                            stderr := None; returncode := None;
                                            p_sink := FileObj h;
                                            p_writes := Some (IOError m) :: rest;
                                            p_diag := dg; p_status := st |}) |};
           files := fs; encoder := enc; next_pid := np; events := evs |}
      = (Raise x,
         {| self := {| logfile := Some (FileObj h); filename := Some fn;
                       codec := Some c; ext := Some e;
                       proc := Some (Some {| pid := n; stdin := Some Closed;
                                             stderr := None;
                                             returncode := Some st;
                                             p_sink := FileObj h; p_writes := rest;
                                             p_diag := dg; p_status := st |}) |};
            files := set_nth h f' fs; encoder := enc; next_pid := np;
            events := (evs ++ [EvCommunicate n; EvFileSeek h 0; EvFileRead h])%list |}) /\
      x = if f_binary f then bytes_not_str
          else if utf8_valid (f_contents f ++ dg)
               then IOError (classified c e
                               (base_error (IOError m) fn
                                  (universal_newlines (f_contents f ++ dg)))
                               (universal_newlines (f_contents f ++ dg)))
               else decode_error).
    { unfold write_frames, try_except, stdin_write, on_write_error, communicate,
        reap, print_to, printed, logfile_seek, logfile_read, file_seek, file_read,
        file_obj, put_file, decode.
      run. crunch. run. crunch. rewrite Hf. crunch.
      rewrite nth_error_set_nth_same by assumption. crunch.
      rewrite Hc. crunch.
      rewrite nth_error_set_nth_same by (rewrite ?length_set_nth; assumption).
      crunch. rewrite Nat.sub_0_r, substring_whole.
      destruct (f_binary f) eqn:B; crunch.
      - flatten. rewrite !set_nth_twice, <- !app_assoc. eexists. split; reflexivity.
      - destruct (utf8_valid (f_contents f ++ dg)) eqn:V; crunch.
        + rewrite add_hint_run with (c := c) (e := e) by reflexivity.
          flatten. rewrite !set_nth_twice, <- !app_assoc.
          eexists. split; reflexivity.
        + flatten. rewrite !set_nth_twice, <- !app_assoc.
          eexists. split; reflexivity. }
    destruct run_it as (x & Hrun & Hx).
    assert (Hbytes : diagnostic_bytes
                       {| self := {| logfile := Some (FileObj h); filename := Some fn;
                                     codec := Some c; ext := Some e;
                                     proc := Some (Some {| pid := n; stdin := Some Open;
                                            stderr := None; returncode := None;
                                            p_sink := FileObj h;
                                            p_writes := Some (IOError m) :: rest;
                                            p_diag := dg; p_status := st |}) |};
                          files := fs; encoder := enc; next_pid := np; events := evs |}
                       {| pid := n; stdin := Some Open; stderr := None;
                          returncode := None; p_sink := FileObj h;
                          p_writes := Some (IOError m) :: rest;
                          p_diag := dg; p_status := st |}
                     = f_contents f ++ dg).
    { unfold diagnostic_bytes. simpl. rewrite Hf. reflexivity. }
    exists x. eexists. split; [exact Hrun|].
    unfold diagnostics. rewrite Hbytes. cbn [stderr].
    split; [reflexivity|]. split; [reflexivity|].
    split.
    { split; [apply length_set_nth|].
      intros k y Hk. simpl in Hk |- *. destruct (Nat.eq_dec h k) as [<-|ne].
      - rewrite nth_error_set_nth_same by assumption.
        eexists. split; [reflexivity|]. simpl. split; congruence.
      - rewrite nth_error_set_nth_other by assumption. eauto. }
    split; [reflexivity|]. split; [reflexivity|].
    split.
    { intros h' _ Hh'. inversion Hh'; subst h'. simpl.
      rewrite nth_error_set_nth_same by assumption.
      eexists. split; [reflexivity|]. split; reflexivity. }
    split.
    { intros ([H|(h' & g & Hs' & Hg & Hgc & Hgb)] & V); [simpl in H; congruence|].
      simpl in Hs', Hg. inversion Hs'; subst h'.
      assert (g = f) by congruence. subst g.
      rewrite ?Hbytes in V. rewrite Hgb, V in Hx. exact Hx. }
    split.
    { intros V [H|(h' & g & Hs' & Hg & Hgb)]; [simpl in H; congruence|].
      simpl in Hs', Hg. inversion Hs'; subst h'.
      assert (g = f) by congruence. subst g.
      rewrite ?Hbytes in V. rewrite Hgb, V in Hx. exact Hx. }
    intros h' g _ Hs' Hg Hgb. simpl in Hs', Hg. inversion Hs'; subst h'.
    assert (g = f) by congruence. subst g.
    rewrite Hgb in Hx. exact Hx.
Qed.
Ltac break_match :=
  match goal with
  | |- context [match ?x with _ => _ end] =>
      lazymatch x with
      | context [match _ with _ => _ end] => fail
      | _ => destruct x eqn:?
      end
  | |- context [if ?x then _ else _] =>
      lazymatch x with
      | context [match _ with _ => _ end] => fail
      | _ => destruct x eqn:?
      end
  end.

Lemma write_frames_sound (data : bytes) (s : State) :
  sound s -> sound (snd (write_frames data s)).
Proof.
  intros Hs. unfold sound in *.
  destruct s as [[lf fn c e pr] fs enc np evs]. simpl in Hs.
  unfold write_frames, try_except, stdin_write, on_write_error, communicate,
    reap, print_to, printed, logfile_seek, logfile_read, file_seek, file_read,
    file_obj, put_file, add_hint, decode.
  run. cbn -[nth_error set_nth str_in utf8_valid universal_newlines].
  destruct pr as [[p|]|]; cbn -[nth_error set_nth str_in utf8_valid universal_newlines];
    try (intros; discriminate).
  specialize (Hs p eq_refl).
  destruct p as [n i er rc sink wr dg st]. simpl in Hs.
  destruct i as [[|]|]; [| |congruence];
    cbn -[nth_error set_nth str_in utf8_valid universal_newlines].
  2:{ intros p' H. inversion H. simpl. discriminate. }
  repeat (break_match;
          cbn -[nth_error set_nth str_in utf8_valid universal_newlines] in * );
  intros p' H; inversion H; simpl; try discriminate.
Qed.
Lemma close_idle (s : State) : no_handle s -> close s = (Ok tt, s).
Proof.
  intros [H|H]; unfold close; run; rewrite H; reflexivity.
Qed.

Lemma files_kept_by_files (s1 s1' s2 s2' : State) :
  files s1 = files s2 -> files s1' = files s2' ->
  files_kept s1 s1' -> files_kept s2 s2'.
Proof. unfold files_kept. intros -> ->. trivial. Qed.

Lemma close_live (s : State) (p : Popen) :
  proc (self s) = Some (Some p) -> stdin_closes p ->
  exists s',
    close s = (Ok tt, s') /\
    self s' = with_proc (Some None) (self s) /\
    events s' = (events s ++ release_calls p)%list /\
    files_kept s s' /\ encoder s' = encoder s /\ next_pid s' = next_pid s.
Proof.
  intros Hp Hin.
  destruct s as [[lf fn c e pr] fs enc np evs]. simpl in Hp. subst pr.
  destruct p as [n i er rc sink wr dg st]. unfold stdin_closes in Hin. simpl in Hin.
  assert (cases : i = Some Closed \/ (i = Some Open /\ (wr = [] \/ exists rest, wr = None :: rest))).
  { destruct Hin as [H|[H W]]; [now left|right]. split; [exact H|].
    destruct wr as [|[x|] rest]; simpl in W; [now left | discriminate | right; eauto]. }
  clear Hin.
  unfold close, stdin_close, stderr_close, wait, reap, print_to, release_calls.
  destruct cases as [->|[-> [->|(rest & ->)]]];
    run; cbn -[printed];
    destruct er as [er|], rc as [rc|]; cbn -[printed];
    (eexists; split; [reflexivity|]);
    try match goal with
        | |- context [printed ?a ?b ?s] =>
            destruct (printed_kept a b s) as (K & Ks & Ke & Kn & Kp);
            cbn -[printed] in Ks, Ke, Kn, Kp; cbn -[printed];
            rewrite ?Ks, ?Ke, ?Kn, ?Kp
        end;
    cbn -[printed]; rewrite <- ?app_assoc;
    (split; [reflexivity|]); (split; [reflexivity|]);
    (split; [|split; reflexivity]);
    first [ eapply files_kept_by_files; [| |exact K]; reflexivity
          | eapply files_kept_by_files; [| |apply files_kept_refl]; reflexivity ].
Qed.

Lemma close_fails (s : State) (p : Popen) (e : exn) :
  proc (self s) = Some (Some p) -> stdin_close_fails p e ->
  close s =
  (Raise e,
   add_event (EvStdinClose (pid p))
     (set_self (with_proc (Some (Some (half_closed p))) (self s)) s)).
Proof.
  intros Hp (Hin & Hw).
  destruct s as [[lf fn c x pr] fs enc np evs]. simpl in Hp. subst pr.
  destruct p as [n i er rc sink wr dg st]. simpl in Hin, Hw. subst i.
  destruct wr as [|[y|] rest]; simpl in Hw; try discriminate.
  inversion Hw; subst y. reflexivity.
Qed.

Lemma stdin_close_cases (p : Popen) :
  stdin p <> None -> stdin_closes p \/ exists e, stdin_close_fails p e.
Proof.
  unfold stdin_closes, stdin_close_fails. intros H.
  destruct (stdin p) as [[|]|]; [|left; left; reflexivity|congruence].
  destruct (hd None (p_writes p)) as [e|]; [right; eauto | left; right; auto].
Qed.

Lemma half_closed_closes (p : Popen) : stdin_closes (half_closed p).
Proof. left. reflexivity. Qed.
Lemma sound_cases (s : State) :
  sound s ->
  no_handle s \/ exists p, proc (self s) = Some (Some p) /\ stdin p <> None.
Proof.
  unfold sound, no_handle. intros H.
  destruct (proc (self s)) as [[p|]|]; eauto.
Qed.

Lemma close_stdin_missing (s : State) (p : Popen) :
  proc (self s) = Some (Some p) -> stdin p = None ->
  exists e, close s = (Raise e, s).
Proof.
  intros Hp Hin.
  destruct s as [[lf fn c e pr] fs enc np evs]. simpl in Hp. subst pr.
  destruct p as [n i er rc sink wr dg st]. simpl in Hin. subst i.
  eexists. reflexivity.
Qed.

Lemma close_ok_no_handle (s s' : State) :
  close s = (Ok tt, s') -> no_handle s'.
Proof.
  intros H. destruct (proc (self s)) as [[p|]|] eqn:Hp.
  - destruct (stdin p) as [i|] eqn:Hin.
    + destruct (stdin_close_cases p) as [Hc|(e & Hf)]; [congruence| |].
      * destruct (close_live s p Hp Hc) as (s1 & H1 & Hself & _).
        rewrite H1 in H. inversion H; subst s1. right. rewrite Hself. reflexivity.
      * rewrite (close_fails s p e Hp Hf) in H. discriminate.
    + destruct (close_stdin_missing s p Hp Hin) as (e & He). congruence.
  - rewrite close_idle in H by (right; assumption).
    inversion H; subst. right; assumption.
  - rewrite close_idle in H by (left; assumption).
    inversion H; subst. left; assumption.
Qed.

Lemma write_frames_no_handle (s : State) (data : bytes) :
  no_handle s ->
  exists msg, write_frames data s = (Raise (AttributeError msg), s).
Proof.
  intros [H|H]; unfold write_frames, try_except, stdin_write; run; rewrite H;
    eexists; reflexivity.
Qed.

Lemma calls_close_idle (n : nat) (s : State) :
  no_handle s -> calls n close s = (Ok tt, s).
Proof.
  intros H. induction n as [|n IH]; [reflexivity|].
  simpl. unfold bind. rewrite close_idle by assumption. exact IH.
Qed.

Lemma close_sound (s : State) : sound s -> sound (snd (close s)).
Proof.
  intros H. destruct (sound_cases s H) as [idle|(p & Hp & Hin)].
  - rewrite close_idle by assumption. exact H.
  - destruct (stdin_close_cases p Hin) as [Hc|(e & Hf)].
    + destruct (close_live s p Hp Hc) as (s' & -> & Hself & _). simpl.
      unfold sound. rewrite Hself. simpl. discriminate.
    + rewrite (close_fails s p e Hp Hf). simpl. unfold sound. simpl.
      intros q Hq. inversion Hq. simpl. discriminate.
Qed.

Lemma construct_sound (bin os fn : string) (fps nb nch : Z) (c : string)
    (br iv : option string) (lf : option stream) (ps : option (list string))
    (s : State) :
  sound (snd (FFMPEG_AudioWriter bin os fn fps nb nch c br iv lf ps s)).
Proof.
  rewrite construct_run. unfold sound, constructed.
  destruct (enc_start (encoder s)) eqn:E; simpl; rewrite ?E.
  - discriminate.
  - intros p H. inversion H. simpl. discriminate.
Qed.

Lemma reachable_sound (bin os : string) (s : State) :
  reachable bin os s -> sound s.
Proof.
  induction 1.
  - apply construct_sound.
  - now apply write_frames_sound.
  - now apply close_sound.
Qed.

Lemma count_release_calls (p : Popen) :
  count_event (is_wait (pid p)) (release_calls p) = 1 /\
  count_event (is_stdin_close (pid p)) (release_calls p) = 1 /\
  forall h, count_event (is_file_close h) (release_calls p) = 0.
Proof.
  unfold release_calls, count_event. simpl. rewrite !filter_app. simpl.
  rewrite Nat.eqb_refl. destruct (stderr p); simpl; auto.
Qed.

(** What a call of [close] comes to on a writer that holds the process
    [p]: it goes through when closing the standard input does, and
    raises the error of that closing when it does not, with the pipe
    closed all the same and the process kept. *)
Lemma close_outcome (s : State) (p : Popen) :
  proc (self s) = Some (Some p) -> stdin p <> None ->
  (stdin_closes p /\
   exists s',
     close s = (Ok tt, s') /\
     self s' = with_proc (Some None) (self s) /\
     events s' = (events s ++ release_calls p)%list /\
     files_kept s s' /\ encoder s' = encoder s /\ next_pid s' = next_pid s) \/
  (exists e,
     stdin_close_fails p e /\
     close s =
     (Raise e,
      add_event (EvStdinClose (pid p))
        (set_self (with_proc (Some (Some (half_closed p))) (self s)) s))).
Proof.
  intros Hp Hin. destruct (stdin_close_cases p Hin) as [Hc|(e & Hf)].
  - left. split; [exact Hc|]. now apply close_live.
  - right. exists e. split; [exact Hf|]. now apply close_fails.
Qed.

(** ** Closing *)

(** C3, as the code has it.  On a writer that holds no process, because
    the construction raised before [proc] was assigned or because
    [close] has returned already, any number of calls of [close] do
    nothing and do not raise.  On a writer that holds a process, a call
    of [close] that returns has closed the standard input, closed the
    diagnostic pipe if the writer owns one and waited for the process,
    once each, and leaves the writer without a process, so that the
    calls that follow do nothing.  But [close] can raise: when closing
    the standard input fails, because what was left in the buffer of the
    pipe cannot be flushed, the error comes out of [close], the process
    has not been waited for and the writer keeps it; a second call then
    closes the standard input again, to no effect, and releases the
    process. *)
Theorem close_releases_once (bin os : string) (s : State) :
  reachable bin os s ->
  (no_handle s -> forall n, calls n close s = (Ok tt, s)) /\
  (forall p, proc (self s) = Some (Some p) ->
     (stdin_closes p \/ exists e, stdin_close_fails p e) /\
     (stdin_closes p ->
      exists s1,
        close s = (Ok tt, s1) /\ no_handle s1 /\
        events s1 = (events s ++ release_calls p)%list /\
        count_event (is_wait (pid p)) (release_calls p) = 1 /\
        count_event (is_stdin_close (pid p)) (release_calls p) = 1 /\
        forall n, calls n close s1 = (Ok tt, s1)) /\
     (forall e, stdin_close_fails p e ->
      exists s1 s2,
        close s = (Raise e, s1) /\
        proc (self s1) = Some (Some (half_closed p)) /\
        events s1 = (events s ++ [EvStdinClose (pid p)])%list /\
        close s1 = (Ok tt, s2) /\ no_handle s2 /\
        events s2 = (events s1 ++ release_calls p)%list /\
        forall n, calls n close s2 = (Ok tt, s2))).
Proof.
  intros R. apply reachable_sound in R. split.
  - intros idle n. now apply calls_close_idle.
  - intros p Hp. pose proof (R p Hp) as Hin.
    split; [now apply stdin_close_cases|]. split.
    + intros Hc. destruct (close_live s p Hp Hc) as (s1 & H1 & Hself & Hev & _).
      assert (idle1 : no_handle s1) by (right; rewrite Hself; reflexivity).
      exists s1. split; [exact H1|]. split; [exact idle1|]. split; [exact Hev|].
      destruct (count_release_calls p) as (Hw & Hs & _).
      split; [exact Hw|]. split; [exact Hs|].
      intros n. now apply calls_close_idle.
    + intros e Hf. rewrite (close_fails s p e Hp Hf).
      set (s1 := add_event _ _).
      assert (Hp1 : proc (self s1) = Some (Some (half_closed p))) by reflexivity.
      destruct (close_live s1 (half_closed p) Hp1 (half_closed_closes p))
        as (s2 & H2 & Hself & Hev & _).
      assert (idle2 : no_handle s2) by (right; rewrite Hself; reflexivity).
      exists s1, s2. split; [reflexivity|]. split; [exact Hp1|].
      split; [reflexivity|]. split; [exact H2|]. split; [exact idle2|].
      split; [exact Hev|]. intros n. now apply calls_close_idle.
Qed.

Lemma close_releases_once_witness :
  let s := snd (FFMPEG_AudioWriter "ffmpeg" "posix" "out.mp3" 44100 2 2
                  "libmp3lame" None None None None (world healthy)) in
  exists s1,
    close s = (Ok tt, s1) /\ no_handle s1 /\
    events s1 = (events s ++ [EvStdinClose 0; EvStderrClose 0; EvWait 0])%list /\
    calls 3 close s1 = (Ok tt, s1).
Proof.
  intros s.
  destruct (close_releases_once "ffmpeg" "posix" s
              (after_init "ffmpeg" "posix" "out.mp3" 44100 2 2 "libmp3lame"
                 None None None None (world healthy)))
    as (_ & held).
  destruct (held (started (world healthy) PIPE) eq_refl) as (_ & closes & _).
  destruct closes as (s1 & Hc & Hn & Hev & _ & _ & Hcalls).
  - right. split; reflexivity.
  - exists s1. split; [exact Hc|]. split; [exact Hn|]. split; [exact Hev|].
    apply Hcalls.
Defined.

(** Against C3 as it is stated: the encoder exits while the first chunk
    is still in the buffer of the pipe.  [close] then raises the broken
    pipe of the flush: the process has not been waited for and the
    writer still holds it.  A second call of [close] returns, after it
    has closed the standard input a second time. *)
Lemma close_raises_on_broken_pipe :
  let s0 := snd (FFMPEG_AudioWriter "ffmpeg" "posix" "out.mp3" 44100 2 2
                   "libmp3lame" None None None None (world exits_early)) in
  let written := write_frames [Byte.x00; Byte.x01] s0 in
  let first := close (snd written) in
  let second := close (snd first) in
  reachable "ffmpeg" "posix" (snd written) /\
  fst written = Ok tt /\
  fst first = Raise (IOError "[Errno 32] Broken pipe") /\
  fst (calls 2 close (snd written)) = Raise (IOError "[Errno 32] Broken pipe") /\
  ~ no_handle (snd first) /\
  count_event (is_wait 0) (events (snd first)) = 0 /\
  fst second = Ok tt /\
  no_handle (snd second) /\
  count_event (is_stdin_close 0) (events (snd second)) = 2 /\
  count_event (is_wait 0) (events (snd second)) = 1.
Proof.
  split.
  - apply after_write_frames. apply after_init.
  - vm_compute. repeat split; try reflexivity.
    + intros [H|H]; discriminate.
    + right. reflexivity.
Qed.

(** A writer whose construction raised: the program could not be
    started, [proc] was never assigned, and closing calls nothing. *)
Example close_after_failed_construction :
  let run := FFMPEG_AudioWriter "ffmpeg" "posix" "out.mp3" 44100 2 2
               "libmp3lame" None None None None (world missing_binary) in
  (exists e, fst run = Raise e) /\
  proc (self (snd run)) = None /\
  calls 2 close (snd run) = (Ok tt, snd run) /\
  events (snd run) = [].
Proof.
  vm_compute. repeat split. eexists. reflexivity.
Qed.




(** A [with] block whose body ends normally while the encoder has
    exited: [close] is called, and its error is the outcome of the
    block. *)
Example with_block_failing_close :
  let s := snd (FFMPEG_AudioWriter "ffmpeg" "posix" "out.mp3" 44100 2 2
                  "libmp3lame" None None None None (world exits_early)) in
  let out := with_ (fun _ => write_frames [Byte.x00; Byte.x01]) s in
  fst out = Raise (IOError "[Errno 32] Broken pipe") /\
  (exists p, proc (self (snd out)) = Some (Some p) /\ returncode p = None) /\
  skipn 1 (events (snd out)) = [EvStdinWrite 0 [Byte.x00; Byte.x01]; EvStdinClose 0].
Proof.
  vm_compute. split; [reflexivity|]. split; [|reflexivity].
  eexists. split; reflexivity.
Qed.

(** A [with] block whose body fails on its first write: the error of the
    body comes out of the block, and the process has been released on
    the way, its three calls made once. *)
Example with_block_failing_write :
  let s := snd (FFMPEG_AudioWriter "ffmpeg" "posix" "out.mp3" 44100 2 2
                  "not_a_real_codec" None None None None (world unknown_codec)) in
  let out := with_ (fun _ => write_frames full_buffer) s in
  (exists msg, fst out = Raise (IOError msg) /\
               contains "Unknown encoder" msg) /\
  proc (self (snd out)) = Some None /\
  skipn 1 (events (snd out))
  = [EvCommunicate 0; EvStdinClose 0; EvStderrClose 0; EvWait 0].
Proof.
  split; [|split; vm_compute; reflexivity].
  eexists. split; [vm_compute; reflexivity|].
  apply str_in_iff_contains. vm_compute. reflexivity.
Qed.

(** C8.  Once [close] has returned, a write is not a classified failure:
    [write_frames] raises an [AttributeError], which is not an
    [IOError], and does nothing else: no write, no call to
    [communicate], no reading of a log file, no state changed. *)
Theorem write_after_close (s s' : State) (data : bytes) :
  close s = (Ok tt, s') ->
  exists msg,
    write_frames data s' = (Raise (AttributeError msg), s') /\
    is_IOError (AttributeError msg) = false /\
    events (snd (write_frames data s')) = events s'.
Proof.
  intros H. apply close_ok_no_handle in H.
  destruct (write_frames_no_handle s' data H) as (msg & Hw).
  exists msg. rewrite Hw. auto.
Qed.

Lemma write_after_close_witness :
  let s := snd (FFMPEG_AudioWriter "ffmpeg" "posix" "out.mp3" 44100 2 2
                  "libmp3lame" None None None None (world healthy)) in
  exists msg,
    write_frames [Byte.x00] (snd (close s))
    = (Raise (AttributeError msg), snd (close s)) /\
    is_IOError (AttributeError msg) = false /\
    events (snd (write_frames [Byte.x00] (snd (close s)))) = events (snd (close s)).
Proof.
  intros s.
  assert (closed : close s = (Ok tt, snd (close s))) by (vm_compute; reflexivity).
  exact (write_after_close s (snd (close s)) [Byte.x00] closed).
Defined.

(** ** Write failures *)




Lemma readable_present (s : State) (p : Popen) :
  sink_readable s p -> sink_present s p.
Proof.
  intros ([H|(h & f & Hs & Hf & Hc & _)] & _); [now left|].
  right. exists h, f. auto.
Qed.




(** The same failure when the diagnostics go to a log file that already
    holds text and whose position is not at its start: the message
    carries the whole file. *)
Example write_failure_reads_whole_file :
  let before := {| self := blank;
                   files := [{| f_path := "out.mp3.log"; f_binary := false;
                                f_contents := "header ";
                                f_pos := 7; f_closed := false |}];
                   encoder := unknown_codec; next_pid := 0; events := [] |} in
  let s := snd (FFMPEG_AudioWriter "ffmpeg" "posix" "out.mp3" 44100 2 2
                  "not_a_real_codec" None None (Some (FileObj 0)) None before) in
  exists msg s',
    write_frames full_buffer s = (Raise (IOError msg), s') /\
    contains "header Unknown encoder 'not_a_real_codec'" msg /\
    skipn 1 (events s') = [EvCommunicate 0; EvFileSeek 0 0; EvFileRead 0].
Proof.
  do 2 eexists. split; [vm_compute; reflexivity|].
  split; [|vm_compute; reflexivity].
  apply str_in_iff_contains. vm_compute. reflexivity.
Qed.

(** The same failure again when the log file was opened in binary mode:
    what is read is [bytes], and the search for the first marker is a
    [TypeError]. *)
Example write_failure_binary_log :
  let before := {| self := blank;
                   files := [{| f_path := "out.mp3.log"; f_binary := true;
                                f_contents := "";
                                f_pos := 0; f_closed := false |}];
                   encoder := unknown_codec; next_pid := 0; events := [] |} in
  let s := snd (FFMPEG_AudioWriter "ffmpeg" "posix" "out.mp3" 44100 2 2
                  "not_a_real_codec" None None (Some (FileObj 0)) None before) in
  fst (write_frames full_buffer s) = Raise bytes_not_str /\
  skipn 1 (events (snd (write_frames full_buffer s)))
  = [EvCommunicate 0; EvFileSeek 0 0; EvFileRead 0].
Proof. vm_compute. split; reflexivity. Qed.

Ltac settle_markers :=
  repeat split; try reflexivity; intros;
  repeat match goal with
         | H : contains _ _ |- _ => apply str_in_iff_contains in H
         | H : ~ contains _ _ |- _ => rewrite <- str_in_iff_contains in H
         end;
  congruence.

(** C2.  The message of the error is the base message followed by the
    hint of the first marker, in the order "Unknown encoder",
    "incorrect codec parameters ?", "bitrate not specified", "Invalid
    encoder type", that occurs in the diagnostics, and by nothing when
    none occurs: the chain of tests of [write_frames] is the ordered
    table read from the top. *)
Theorem hint_by_first_marker (s : State) (p : Popen) (lf : stream)
    (fn c e m : string) (data : bytes) :
  live s p lf fn c e -> write_fails p m -> sink_readable s p ->
  let text := diagnostics s p in
  let base := base_error (IOError m) fn text in
  exists hint,
    fst (write_frames data s) = Raise (IOError (base ++ hint)) /\
    base ++ hint = classified c e base text /\
    (contains "Unknown encoder" text -> hint = hint_unknown_encoder c) /\
    (~ contains "Unknown encoder" text ->
     contains "incorrect codec parameters ?" text ->
     hint = hint_codec_parameters c e) /\
    (~ contains "Unknown encoder" text ->
     ~ contains "incorrect codec parameters ?" text ->
     contains "bitrate not specified" text ->
     hint = hint_bitrate) /\
    (~ contains "Unknown encoder" text ->
     ~ contains "incorrect codec parameters ?" text ->
     ~ contains "bitrate not specified" text ->
     contains "Invalid encoder type" text ->
     hint = hint_encoder_type) /\
    (~ contains "Unknown encoder" text ->
     ~ contains "incorrect codec parameters ?" text ->
     ~ contains "bitrate not specified" text ->
     ~ contains "Invalid encoder type" text ->
     hint = "").
Proof.
  intros L W R text base.
  destruct (write_frames_failure s p lf fn c e m data L W (readable_present s p R))
    as (x & s' & Hw & _ & _ & _ & _ & _ & _ & Hx & _).
  rewrite (Hx R) in Hw. fold text in Hw. fold base in Hw. rewrite Hw. simpl fst.
  unfold classified, first_match, hint_table. simpl find.
  destruct (str_in "Unknown encoder" text) eqn:E1; [eexists; settle_markers|].
  destruct (str_in "incorrect codec parameters ?" text) eqn:E2;
    [eexists; settle_markers|].
  destruct (str_in "bitrate not specified" text) eqn:E3; [eexists; settle_markers|].
  destruct (str_in "Invalid encoder type" text) eqn:E4; [eexists; settle_markers|].
  exists "". rewrite str_app_nil_r. settle_markers.
Qed.

Lemma hint_by_first_marker_witness :
  let s := snd (FFMPEG_AudioWriter "ffmpeg" "posix" "out.mp3" 44100 2 2
                  "not_a_real_codec" None None None None (world two_markers)) in
  let text := "Unknown encoder 'not_a_real_codec', incorrect codec parameters ?" in
  let base := base_error (IOError "[Errno 32] Broken pipe") "out.mp3" text in
  fst (write_frames full_buffer s)
  = Raise (IOError (base ++ hint_unknown_encoder "not_a_real_codec")).
Proof.
  intros s text base.
  destruct (hint_by_first_marker s (started (world two_markers) PIPE) PIPE
              "out.mp3" "not_a_real_codec" "mp3" "[Errno 32] Broken pipe"
              full_buffer)
    as (hint & run & _ & unknown & _).
  - vm_compute. repeat split; discriminate.
  - vm_compute. repeat split; try discriminate. eexists. reflexivity.
  - split; [left; vm_compute; discriminate | reflexivity].
  - rewrite run. rewrite unknown; [reflexivity|].
    apply str_in_iff_contains. vm_compute. reflexivity.
Defined.

(** ** The session *)

Lemma ready_after_write (s : State) (p : Popen) (lf : stream) (fn c e : string)
    (data : bytes) :
  ready s p lf fn c e ->
  ready
    (add_event (EvStdinWrite (pid p) data)
       (set_self (with_proc (Some (Some (with_writes (tl (p_writes p)) p))) (self s)) s))
    (with_writes (tl (p_writes p)) p) lf fn c e.
Proof.
  intros ((Hself & Hsink & Hpipe & Hfile & Hin0) & Hin & Hrc & Hcl & Hread).
  unfold ready, live, sink_present in *. simpl. rewrite Hself. simpl.
  repeat split; auto.
Qed.

Lemma files_kept_same (s s' : State) : files s' = files s -> files_kept s s'.
Proof.
  intros H. apply (files_kept_by_files s s); [reflexivity | now symmetry |].
  apply files_kept_refl.
Qed.

Lemma steady_refl (s : State) (p : Popen) :
  proc (self s) = Some (Some p) -> stdin p <> None -> steady s s p p [].
Proof.
  intros Hp Hin. unfold steady. rewrite <- Hp, with_proc_same, app_nil_r.
  split; [reflexivity|]. split; [reflexivity|]. split; [assumption|].
  split; [tauto|]. split; [reflexivity|]. split; [reflexivity|].
  split; [apply files_kept_refl|]. split; reflexivity.
Qed.

Lemma steady_trans (s1 s2 s3 : State) (p1 p2 p3 : Popen) (e1 e2 : list event) :
  steady s1 s2 p1 p2 e1 -> steady s2 s3 p2 p3 e2 ->
  steady s1 s3 p1 p3 (e1 ++ e2).
Proof.
  intros (A1 & A2 & A3 & A4 & A5 & A6 & A7 & A8 & A9)
         (B1 & B2 & B3 & B4 & B5 & B6 & B7 & B8 & B9).
  unfold steady.
  split; [rewrite B1, A1; reflexivity|]. split; [congruence|].
  split; [assumption|]. split; [tauto|].
  split; [rewrite B5, A5, app_assoc; reflexivity|].
  split; [rewrite forallb_app, A6, B6; reflexivity|].
  split; [eapply files_kept_trans; eassumption|]. split; congruence.
Qed.

Lemma steady_accepted (s : State) (p : Popen) (data : bytes) :
  proc (self s) = Some (Some p) -> stdin p <> None ->
  steady s
    (add_event (EvStdinWrite (pid p) data)
       (set_self (with_proc (Some (Some (with_writes (tl (p_writes p)) p))) (self s)) s))
    p (with_writes (tl (p_writes p)) p) [EvStdinWrite (pid p) data].
Proof.
  intros Hp Hin. unfold steady. simpl.
  split; [reflexivity|]. split; [reflexivity|]. split; [assumption|].
  split; [tauto|]. split; [reflexivity|]. split; [reflexivity|].
  split; [now apply files_kept_same|]. split; reflexivity.
Qed.

Lemma steady_other_error (s : State) (p : Popen) (more : list (option exn)) :
  proc (self s) = Some (Some p) -> stdin p <> None ->
  steady s (set_self (with_proc (Some (Some (with_writes more p))) (self s)) s)
    p (with_writes more p) [].
Proof.
  intros Hp Hin. unfold steady. simpl. rewrite app_nil_r.
  split; [reflexivity|]. split; [reflexivity|]. split; [assumption|].
  split; [tauto|]. split; [reflexivity|]. split; [reflexivity|].
  split; [now apply files_kept_same|]. split; reflexivity.
Qed.

Lemma loop_failure_reads (p : Popen) :
  forallb is_loop_event (EvCommunicate (pid p) :: failure_reads p) = true.
Proof.
  unfold failure_reads. destruct (stderr p), (p_sink p); reflexivity.
Qed.


Lemma write_all_effect (chunks : list (res bytes)) :
  forall (s : State) (p : Popen) (lf : stream) (fn c e : string),
  ready s p lf fn c e ->
  exists r s' p' evs,
    write_all chunks s = (r, s') /\
    steady s s' p p' evs.
Proof.
  induction chunks as [|[data|x] rest IH]; intros s p lf fn c e Hr;
    pose proof Hr as ((Hself & Hsink & Hpipe & Hfile & Hin0) & Hin & Hrc & Hcl & Hread);
    assert (Hp : proc (self s) = Some (Some p)) by (rewrite Hself; reflexivity).
  - exists (Ok tt), s, p, []. split; [reflexivity|]. now apply steady_refl.
  - simpl. unfold bind.
    assert (accepted : hd None (p_writes p) = None ->
      exists r s' p' evs,
        (let (r0, s0) := write_frames data s in
         match r0 with
         | Ok _ => write_all rest s0
         | Raise e0 => (Raise e0, s0)
         end) = (r, s') /\
        steady s s' p p' evs).
    { intros W. rewrite (write_frames_accepted s p data Hp Hin W).
      destruct (IH _ _ _ _ _ _ (ready_after_write s p lf fn c e data Hr))
        as (r & s' & p' & evs & Hw & Hst).
      exists r, s', p', ([EvStdinWrite (pid p) data] ++ evs)%list.
      split; [exact Hw|].
      eapply steady_trans; [now apply steady_accepted | exact Hst]. }
    destruct (p_writes p) as [|[x|] more] eqn:W; [now apply accepted| |now apply accepted].
    clear accepted. destruct (is_IOError x) eqn:IO.
    + destruct x as [m| | | | | |]; try discriminate.
      assert (Hf : write_fails p m) by (repeat split; eauto).
      destruct (write_frames_failure s p lf fn c e m data (proj1 Hr) Hf Hread)
        as (x & s' & Hw & Hs' & Hev & Hk & He & Hn & _).
      rewrite Hw. do 4 eexists. split; [reflexivity|].
      unfold steady. split; [exact Hs'|]. split; [reflexivity|].
      split; [discriminate|]. split.
      { simpl. destruct (stderr p); split; congruence. }
      split; [exact Hev|]. split; [apply loop_failure_reads|].
      split; [exact Hk|]. split; assumption.
    + rewrite (write_frames_other_error s p x more data Hp Hin W IO).
      do 4 eexists. split; [reflexivity|]. now apply steady_other_error.
  - exists (Raise x), s, p, []. split; [reflexivity|]. now apply steady_refl.
Qed.

Lemma session_unfold (bin os : string) (clip : AudioClip) (fn : string)
    (fps nb bs : Z) (c : string) (br : option string) (wl : bool)
    (ps : option (list string)) (s : State) :
  ffmpeg_audiowrite bin os clip fn fps nb bs c br wl ps s =
  (FFMPEG_AudioWriter bin os fn fps nb (nchannels clip) c br None
     (if wl then Some (FileObj (List.length (files s))) else None) ps ;;
   write_all (iter_chunks clip bs nb fps) ;;
   close ;;
   (if wl then file_close (List.length (files s)) else ret tt) ;;
   emit (EvLogger "MoviePy - Done.")) (session_start fn wl s).
Proof.
  unfold ffmpeg_audiowrite, session_start, open_w_plus.
  destruct wl; reflexivity.
Qed.

Lemma nth_error_last (A : Type) (l : list A) (a : A) :
  nth_error (l ++ [a]) (List.length l) = Some a.
Proof. rewrite nth_error_app2, Nat.sub_diag by lia. reflexivity. Qed.

Lemma construct_ready (bin os fn : string) (fps nb nch : Z) (c : string)
    (br iv : option string) (lf : option stream) (ps : option (list string))
    (s : State) :
  enc_start (encoder s) = None ->
  (lf = None \/
   exists h f, lf = Some (FileObj h) /\ nth_error (files s) h = Some f /\
               f_closed f = false) ->
  let sink := match lf with None => PIPE | Some l => l end in
  ready (snd (FFMPEG_AudioWriter bin os fn fps nb nch c br iv lf ps s))
    (started s sink) sink fn c (split_dot_last fn).
Proof.
  intros start Hlf sink. rewrite construct_run, start. simpl snd.
  unfold ready, live, sink_present, constructed. simpl. rewrite start.
  split.
  - split; [reflexivity|]. split; [reflexivity|].
    split; [intros ->; discriminate|]. split; [intros ->; reflexivity|].
    discriminate.
  - split; [reflexivity|]. split; [reflexivity|].
    split; [destruct (stream_eqb sink PIPE); discriminate|].
    destruct Hlf as [->|(h & f & -> & Hf & Hc)].
    + left. simpl. discriminate.
    + right. exists h, f. auto.
Qed.

Lemma session_start_facts (fn : string) (wl : bool) (s : State) :
  encoder (session_start fn wl s) = encoder s /\
  next_pid (session_start fn wl s) = next_pid s /\
  events (session_start fn wl s)
  = (events s
     ++ (if wl then [EvOpen (fn ++ ".log") "w+" (List.length (files s))] else [])
     ++ [EvLogger ("MoviePy - Writing audio in " ++ fn)])%list /\
  (wl = true ->
   nth_error (files (session_start fn wl s)) (List.length (files s))
   = Some {| f_path := fn ++ ".log"; f_binary := false; f_contents := "";
             f_pos := 0; f_closed := false |}) /\
  (wl = false -> files (session_start fn wl s) = files s).
Proof.
  unfold session_start. destruct wl; simpl.
  - rewrite <- app_assoc. repeat split; auto using nth_error_last. discriminate.
  - repeat split; auto. discriminate.
Qed.

(** The loop of a session whose encoder has started: it runs from the
    state the constructor leaves, keeps the process and the log file,
    and makes the calls of a loop only. *)
Lemma session_loop (bin os : string) (clip : AudioClip) (fn : string)
    (fps nb bs : Z) (c : string) (br : option string) (wl : bool)
    (ps : option (list string)) (s : State) :
  enc_start (encoder s) = None ->
  let h := List.length (files s) in
  let sC := loop_start bin os clip fn fps nb c br wl ps s in
  exists r s2 p2 evs,
    write_all (iter_chunks clip bs nb fps) sC = (r, s2) /\
    ffmpeg_audiowrite bin os clip fn fps nb bs c br wl ps s
    = match r with
      | Ok _ =>
          (close ;;
           (if wl then file_close h else ret tt) ;;
           emit (EvLogger "MoviePy - Done.")) s2
      | Raise x => (Raise x, s2)
      end /\
    proc (self s2) = Some (Some p2) /\
    stdin p2 <> None /\
    pid p2 = next_pid s /\
    (stderr p2 = None <-> wl = true) /\
    forallb is_loop_event evs = true /\
    events s2
    = (events s ++ opening bin os fn fps nb (nchannels clip) c br wl ps s
       ++ evs)%list /\
    (wl = true ->
     exists f, nth_error (files s2) h = Some f /\ f_path f = fn ++ ".log" /\
               f_closed f = false).
Proof.
  intros start h sC. rewrite session_unfold. fold h.
  unfold sC, loop_start. fold h.
  destruct (session_start_facts fn wl s) as (Henc & Hpid & Hev & Hnew & Hold).
  fold h in Hev, Hnew.
  set (sB := session_start fn wl s) in *. clearbody sB.
  set (lf := if wl then Some (FileObj h) else None).
  set (sink := if wl then FileObj h else PIPE).
  assert (Hsink : match lf with None => PIPE | Some l => l end = sink)
    by (unfold lf, sink; destruct wl; reflexivity).
  assert (startB : enc_start (encoder sB) = None) by (rewrite Henc; exact start).
  assert (Hlf : lf = None \/
                exists k f, lf = Some (FileObj k) /\ nth_error (files sB) k = Some f /\
                            f_closed f = false).
  { unfold lf. destruct wl; [right|now left].
    exists h. eexists. split; [reflexivity|]. split; [now apply Hnew|reflexivity]. }
  pose proof (construct_ready bin os fn fps nb (nchannels clip) c br None lf ps sB
                startB Hlf) as Hready.
  cbv zeta in Hready. rewrite Hsink in Hready.
  pose proof (construct_run bin os fn fps nb (nchannels clip) c br None lf ps sB)
    as Hcons.
  cbv zeta in Hcons. rewrite startB, Hsink in Hcons.
  unfold bind at 1. rewrite Hcons. rewrite Hcons in Hready. simpl snd in *.
  set (sK := {| self := constructed sB fn c lf; files := files sB;
                encoder := encoder sB; next_pid := S (next_pid sB);
                events := _ |}) in *.
  destruct (write_all_effect (iter_chunks clip bs nb fps) sK (started sB sink) sink
              fn c (split_dot_last fn) Hready)
    as (r & s2 & p2 & evs & Hw & Hst).
  destruct Hst as (S1 & S2 & S3 & S4 & S5 & S6 & S7 & S8 & S9).
  assert (HevK : events sK
                 = (events s ++ opening bin os fn fps nb (nchannels clip) c br wl ps s)%list).
  { unfold sK, opening. simpl events. rewrite Hev, Hpid. fold h. fold sink.
    rewrite <- !app_assoc. reflexivity. }
  exists r, s2, p2, evs. split; [exact Hw|]. split.
  { unfold bind at 1. rewrite Hw. destruct r as [[]|x]; reflexivity. }
  split; [rewrite S1; reflexivity|]. split; [exact S3|].
  split; [rewrite S2; simpl; exact Hpid|].
  split.
  { rewrite S4. unfold started, sink. simpl. destruct wl; simpl; split; congruence. }
  split; [exact S6|].
  split; [rewrite S5, HevK, <- app_assoc; reflexivity|].
  intros Hwl. destruct S7 as (_ & K).
  destruct (K h _ (Hnew Hwl)) as (f & Hf & Hc & Hp). exists f. auto.
Qed.

(** The end of a session whose loop went through, from the state [s2]
    the loop left: when closing the standard input goes through, the
    process is released, the log file is closed and the end is notified;
    when it fails, its error is the outcome of the session, and nothing
    else is done. *)
Lemma session_end (wl : bool) (h : nat) (s2 : State) (p2 : Popen) (path : string) :
  proc (self s2) = Some (Some p2) -> stdin p2 <> None ->
  (wl = true ->
   exists f, nth_error (files s2) h = Some f /\ f_path f = path /\
             f_closed f = false) ->
  (stdin_closes p2 /\
   exists s',
     (close ;;
      (if wl then file_close h else ret tt) ;;
      emit (EvLogger "MoviePy - Done.")) s2 = (Ok tt, s') /\
     proc (self s') = Some None /\
     events s'
     = (events s2 ++ release_calls p2
        ++ (if wl then [EvFileClose h] else [])
        ++ [EvLogger "MoviePy - Done."])%list /\
     (wl = true ->
      exists f, nth_error (files s') h = Some f /\ f_path f = path /\
                f_closed f = true)) \/
  (exists e,
     stdin_close_fails p2 e /\
     (close ;;
      (if wl then file_close h else ret tt) ;;
      emit (EvLogger "MoviePy - Done.")) s2
     = (Raise e,
        add_event (EvStdinClose (pid p2))
          (set_self (with_proc (Some (Some (half_closed p2))) (self s2)) s2))).
Proof.
  intros Hp2 Hin Hfile.
  destruct (close_outcome s2 p2 Hp2 Hin)
    as [(Hc & s3 & Hclose & C1 & C2 & C3 & C4 & C5)|(e & Hf & Hclose)].
  - left. split; [exact Hc|]. unfold bind at 1. rewrite Hclose.
    destruct wl.
    + destruct C3 as (_ & K).
      destruct (Hfile eq_refl) as (f2 & Hf2 & Hpath2 & _).
      destruct (K h f2 Hf2) as (f3 & Hf3 & Hcl3 & Hpath3).
      unfold bind at 1. rewrite (file_close_run s3 h f3 Hf3).
      eexists. split; [reflexivity|].
      cbn [self events files add_event set_files set_self]. rewrite C1.
      split; [reflexivity|]. split; [rewrite C2, <- !app_assoc; reflexivity|].
      intros _. eexists. split.
      { apply nth_error_set_nth_same. eapply nth_error_in_range; eauto. }
      simpl. split; [congruence | reflexivity].
    + unfold bind at 1. unfold ret, emit, modify.
      eexists. split; [reflexivity|].
      cbn [self events files add_event set_files set_self]. rewrite C1.
      split; [reflexivity|]. split; [rewrite C2, <- !app_assoc; reflexivity|].
      discriminate.
  - right. exists e. split; [exact Hf|]. unfold bind at 1. rewrite Hclose.
    reflexivity.
Qed.

Lemma session_not_started (bin os : string) (clip : AudioClip) (fn : string)
    (fps nb bs : Z) (c : string) (br : option string) (wl : bool)
    (ps : option (list string)) (s : State) (x : exn) :
  enc_start (encoder s) = Some x ->
  exists s',
    ffmpeg_audiowrite bin os clip fn fps nb bs c br wl ps s = (Raise x, s') /\
    proc (self s') = None /\
    events s'
    = (events s
       ++ (if wl then [EvOpen (fn ++ ".log") "w+" (List.length (files s))] else [])
       ++ [EvLogger ("MoviePy - Writing audio in " ++ fn)])%list /\
    (wl = true ->
     exists f, nth_error (files s') (List.length (files s)) = Some f /\
               f_path f = fn ++ ".log" /\ f_closed f = false).
Proof.
  intros start. rewrite session_unfold.
  destruct (session_start_facts fn wl s) as (Henc & Hpid & Hev & Hnew & Hold).
  set (sB := session_start fn wl s) in *. clearbody sB.
  unfold bind at 1. rewrite construct_run, Henc, start.
  eexists. split; [reflexivity|]. simpl. unfold constructed.
  rewrite Henc, start. split; [reflexivity|]. split; [exact Hev|].
  intros Hwl. eexists. split; [now apply Hnew|]. split; reflexivity.
Qed.

Lemma count_event_app (f : event -> bool) (a b : list event) :
  count_event f (a ++ b) = count_event f a + count_event f b.
Proof. unfold count_event. now rewrite filter_app, length_app. Qed.

Lemma count_loop_events (f : event -> bool) (evs : list event) :
  (forall e, is_loop_event e = true -> f e = false) ->
  forallb is_loop_event evs = true -> count_event f evs = 0.
Proof.
  intros Hf. unfold count_event. induction evs as [|e evs IH]; [reflexivity|].
  simpl. intros H. apply andb_prop in H. destruct H as [He Hevs].
  rewrite (Hf e He). auto.
Qed.



Lemma loop_event_not_file_close (h : nat) (e : event) :
  is_loop_event e = true -> is_file_close h e = false.
Proof. destruct e; simpl; congruence. Qed.





(** A session whose loop completes while the encoder has exited: [close]
    is called, the flush of the chunks left in the buffer fails, and the
    broken pipe is the outcome of the session; the process has not been
    waited for. *)
Example session_failing_close :
  let run := ffmpeg_audiowrite "ffmpeg" "posix" one_chunk "out.mp3" 44100 2
               2000 "libmp3lame" None false None (world exits_early) in
  fst run = Raise (IOError "[Errno 32] Broken pipe") /\
  (exists p, proc (self (snd run)) = Some (Some p) /\ returncode p = None) /\
  count_event (is_stdin_close 0) (events (snd run)) = 1 /\
  count_event (is_wait 0) (events (snd run)) = 0.
Proof.
  vm_compute. split; [reflexivity|]. split; [|split; reflexivity].
  eexists. split; reflexivity.
Qed.

(** C7, as the code has it.  A session that was asked for a log file
    opens it first, before it constructs the writer, and starts the
    encoder with that file as its diagnostic stream.  On normal
    completion it closes the file right after the writer has waited for
    its process.  When the session fails, at the start of the encoder,
    on a write or in the frame source, it does not close the file. *)
Theorem session_log_file (bin os : string) (clip : AudioClip) (fn : string)
    (fps nb bs : Z) (c : string) (br : option string)
    (ps : option (list string)) (s : State) :
  let run := ffmpeg_audiowrite bin os clip fn fps nb bs c br true ps s in
  let h := List.length (files s) in
  let n := next_pid s in
  exists rest f,
    events (snd run) = (events s ++ EvOpen (fn ++ ".log") "w+" h :: rest)%list /\
    nth_error (files (snd run)) h = Some f /\
    f_path f = fn ++ ".log" /\
    (enc_start (encoder s) = None ->
     exists cmd pp rest',
       rest = EvLogger ("MoviePy - Writing audio in " ++ fn)
              :: EvPopen cmd pp n :: rest' /\
       pp_stderr pp = FileObj h) /\
    match fst run with
    | Ok _ =>
        f_closed f = true /\
        exists mid,
          rest = (mid ++ [EvWait n; EvFileClose h; EvLogger "MoviePy - Done."])%list /\
          count_event (is_file_close h) mid = 0
    | Raise _ =>
        f_closed f = false /\ count_event (is_file_close h) rest = 0
    end.
Proof.
  intros run h n. unfold run.
  destruct (enc_start (encoder s)) as [x|] eqn:start.
  - destruct (session_not_started bin os clip fn fps nb bs c br true ps s x start)
      as (s' & Hrun & _ & Hev & Hfile).
    destruct (Hfile eq_refl) as (f & Hf & Hpath & Hclosed).
    rewrite Hrun. simpl fst. simpl snd.
    exists [EvLogger ("MoviePy - Writing audio in " ++ fn)], f.
    split; [exact Hev|]. split; [exact Hf|]. split; [exact Hpath|].
    split; [discriminate|]. split; [exact Hclosed|reflexivity].
  - destruct (session_loop bin os clip fn fps nb bs c br true ps s start)
      as (r & s2 & p2 & evs & Hw & Hrun & Hp2 & Hin & Hpid & Herr & Hloop & Hev & Hfile).
    fold h in Hrun, Hfile. fold n in Hpid.
    assert (Hnone : stderr p2 = None) by (now apply Herr).
    pose proof (count_loop_events (is_file_close h) evs
                  (loop_event_not_file_close h) Hloop) as Floop.
    destruct (popen_params_streams os
                {| pp_stdout := DEVNULL; pp_stderr := FileObj h; pp_stdin := PIPE;
                   pp_creationflags := None |}) as (_ & Hstderr & _).
    unfold opening in Hev. fold h in Hev. fold n in Hev.
    set (cmd := build_cmd bin fn fps nb (nchannels clip) c br None (FileObj h) ps) in *.
    set (pp := cross_platform_popen_params os
                 {| pp_stdout := DEVNULL; pp_stderr := FileObj h; pp_stdin := PIPE;
                    pp_creationflags := None |}) in *.
    set (start_calls := [EvLogger ("MoviePy - Writing audio in " ++ fn);
                         EvPopen cmd pp n]).
    assert (Hev2 : events s2
                   = (events s ++ EvOpen (fn ++ ".log") "w+" h
                        :: start_calls ++ evs)%list).
    { rewrite Hev. simpl. reflexivity. }
    assert (Cstart : count_event (is_file_close h) start_calls = 0) by reflexivity.
    destruct r as [[]|x].
    + destruct (session_end true h s2 p2 (fn ++ ".log") Hp2 Hin Hfile)
        as [(Hc & s' & Hend & Hproc & Hev' & Hf')|(e & Hf & Hend)];
        rewrite Hend in Hrun; rewrite Hrun; simpl fst; simpl snd.
      * destruct (Hf' eq_refl) as (f & Hf & Hpath & Hclosed).
        unfold release_calls in Hev'. rewrite Hnone, Hpid in Hev'.
        exists (start_calls ++ evs
                ++ [EvStdinClose n; EvWait n; EvFileClose h;
                    EvLogger "MoviePy - Done."])%list, f.
        split.
        { rewrite Hev', Hev2. simpl. rewrite <- !app_assoc. reflexivity. }
        split; [exact Hf|]. split; [exact Hpath|]. split.
        { intros _. exists cmd, pp. eexists. split; [reflexivity | exact Hstderr]. }
        split; [exact Hclosed|].
        exists (start_calls ++ evs ++ [EvStdinClose n])%list.
        split; [simpl; rewrite <- !app_assoc; reflexivity|].
        rewrite !count_event_app, Cstart, Floop. reflexivity.
      * destruct (Hfile eq_refl) as (f & Hf2 & Hpath & Hclosed).
        exists (start_calls ++ evs ++ [EvStdinClose n])%list, f.
        split.
        { cbn [events add_event set_self]. rewrite Hev2, Hpid. simpl.
          rewrite <- !app_assoc. reflexivity. }
        split; [exact Hf2|]. split; [exact Hpath|]. split.
        { intros _. exists cmd, pp. eexists. split; [reflexivity | exact Hstderr]. }
        split; [exact Hclosed|].
        rewrite !count_event_app, Cstart, Floop. reflexivity.
    + rewrite Hrun. simpl fst. simpl snd.
      destruct (Hfile eq_refl) as (f & Hf2 & Hpath & Hclosed).
      exists (start_calls ++ evs)%list, f.
      split; [exact Hev2|]. split; [exact Hf2|]. split; [exact Hpath|]. split.
      { intros _. exists cmd, pp. eexists. split; [reflexivity | exact Hstderr]. }
      split; [exact Hclosed|].
      rewrite !count_event_app, Cstart, Floop. reflexivity.
Qed.

(** Against C7 as it is stated: a session with a log file whose first
    write fails ends with the error and with the log file still open;
    the session has made no call to close it. *)
Lemma session_failure_leaves_log_open :
  let run := ffmpeg_audiowrite "ffmpeg" "posix" large_chunks "out.mp3" 44100 2
               2000 "not_a_real_codec" None true None (world unknown_codec) in
  (exists msg, fst run = Raise (IOError msg)) /\
  (exists f, nth_error (files (snd run)) 0 = Some f /\
             f_path f = "out.mp3.log" /\ f_closed f = false) /\
  count_event (is_file_close 0) (events (snd run)) = 0 /\
  hd_error (events (snd run)) = Some (EvOpen "out.mp3.log" "w+" 0).
Proof.
  vm_compute. split; [eexists; reflexivity|].
  split; [eexists; repeat split; reflexivity|]. split; reflexivity.
Qed.

(** A session that goes through: the three chunks are written, the
    process is released once, the log file is closed after it. *)
Example session_completes :
  let run := ffmpeg_audiowrite "ffmpeg" "posix" three_chunks "out.mp3" 44100 2
               2000 "libmp3lame" None true None (world healthy) in
  fst run = Ok tt /\
  proc (self (snd run)) = Some None /\
  skipn 3 (events (snd run))
  = [EvStdinWrite 0 [Byte.x00; Byte.x01]; EvStdinWrite 0 [Byte.x02; Byte.x03];
     EvStdinWrite 0 [Byte.x04; Byte.x05];
     EvStdinClose 0; EvWait 0; EvFileClose 0; EvLogger "MoviePy - Done."].
Proof. vm_compute. repeat split. Qed.

Lemma session_log_file_witness :
  let run := ffmpeg_audiowrite "ffmpeg" "posix" three_chunks "out.mp3" 44100 2
               2000 "libmp3lame" None true None (world healthy) in
  exists rest f,
    events (snd run) = (events (world healthy) ++ EvOpen "out.mp3.log" "w+" 0 :: rest)%list /\
    nth_error (files (snd run)) 0 = Some f /\
    f_path f = "out.mp3.log" /\
    (enc_start (encoder (world healthy)) = None ->
     exists cmd pp rest',
       rest = EvLogger "MoviePy - Writing audio in out.mp3"
              :: EvPopen cmd pp 0 :: rest' /\
       pp_stderr pp = FileObj 0) /\
    match fst run with
    | Ok _ =>
        f_closed f = true /\
        exists mid,
          rest = (mid ++ [EvWait 0; EvFileClose 0; EvLogger "MoviePy - Done."])%list /\
          count_event (is_file_close 0) mid = 0
    | Raise _ =>
        f_closed f = false /\ count_event (is_file_close 0) rest = 0
    end.
Proof.
  exact (session_log_file "ffmpeg" "posix" three_chunks "out.mp3" 44100 2 2000
           "libmp3lame" None None (world healthy)).
Defined.

(** * Further properties of the code *)

(** ** The extension kept by the constructor *)

Lemma has_dot_app (a b : string) : has_dot (a ++ b) = has_dot a || has_dot b.
Proof.
  induction a as [|c a IH]; simpl; [reflexivity|].
  rewrite IH. now rewrite orb_assoc.
Qed.

Lemma last_piece_spec (s : string) :
  forall seg, has_dot seg = false ->
    has_dot (last_piece seg s) = false /\
    (has_dot s = false -> last_piece seg s = seg ++ s) /\
    (has_dot s = true -> exists stem, s = stem ++ "." ++ last_piece seg s).
Proof.
  induction s as [|c s IH]; intros seg Hseg; simpl.
  - split; [assumption|]. split; [intros _; now rewrite str_app_nil_r | discriminate].
  - destruct (Ascii.eqb c ".") eqn:E.
    + apply Ascii.eqb_eq in E. subst c.
      destruct (IH "" eq_refl) as (H1 & H2 & H3).
      split; [assumption|]. split; [discriminate|]. intros _.
      destruct (has_dot s) eqn:D.
      * destruct (H3 eq_refl) as (stem & Hstem).
        exists (String "." stem). simpl. f_equal. exact Hstem.
      * exists "". rewrite (H2 eq_refl). reflexivity.
    + assert (Hseg' : has_dot (seg ++ String c "") = false).
      { rewrite has_dot_app, Hseg. simpl. now rewrite E. }
      destruct (IH _ Hseg') as (H1 & H2 & H3).
      split; [assumption|]. simpl. split.
      * intros D. rewrite (H2 D), str_app_assoc. reflexivity.
      * intros D. destruct (H3 D) as (stem & Hstem).
        exists (String c stem). simpl. f_equal. exact Hstem.
Qed.

(** X1.  The attribute [ext] a construction assigns, whether or not the
    encoder starts, is what follows the last dot of the file name: it has
    no dot itself, it is the whole name when the name has no dot, and
    otherwise the name is a stem, a dot and the extension. *)
Theorem ext_is_last_piece (bin os fn : string) (fps nb nch : Z) (c : string)
    (br iv : option string) (lf : option stream) (ps : option (list string))
    (s : State) :
  exists e,
    ext (self (snd (FFMPEG_AudioWriter bin os fn fps nb nch c br iv lf ps s)))
    = Some e /\
    has_dot e = false /\
    (has_dot fn = false -> e = fn) /\
    (has_dot fn = true -> exists stem, fn = stem ++ "." ++ e).
Proof.
  exists (split_dot_last fn). split.
  - rewrite construct_run. destruct (enc_start (encoder s)); reflexivity.
  - destruct (last_piece_spec fn "" eq_refl) as (H1 & H2 & H3).
    unfold split_dot_last. split; [assumption|]. split; assumption.
Qed.

Lemma ext_is_last_piece_witness :
  exists e,
    ext (self (snd (FFMPEG_AudioWriter "ffmpeg" "posix" "take.2.ogg" 44100 2 2
                      "libvorbis" None None None None (world healthy))))
    = Some e /\
    has_dot e = false /\
    (has_dot "take.2.ogg" = false -> e = "take.2.ogg") /\
    (has_dot "take.2.ogg" = true -> exists stem, "take.2.ogg" = stem ++ "." ++ e).
Proof.
  exact (ext_is_last_piece "ffmpeg" "posix" "take.2.ogg" 44100 2 2 "libvorbis"
           None None None None (world healthy)).
Defined.

(** ** A constructor that fails *)

(** X2.  When the encoder cannot be started, the constructor raises the
    error of [Popen] itself and has started nothing; the object it
    leaves has its file name, codec, extension and log file assigned but
    no attribute [proc]: [close] on it does nothing, and [write_frames]
    raises an [AttributeError] without any call. *)
Theorem construction_failure (bin os fn : string) (fps nb nch : Z) (c : string)
    (br iv : option string) (lf : option stream) (ps : option (list string))
    (s : State) (x : exn) (data : bytes) :
  enc_start (encoder s) = Some x ->
  let run := FFMPEG_AudioWriter bin os fn fps nb nch c br iv lf ps s in
  fst run = Raise x /\
  events (snd run) = events s /\
  next_pid (snd run) = next_pid s /\
  files (snd run) = files s /\
  self (snd run)
  = {| logfile := Some (match lf with None => PIPE | Some l => l end);
       filename := Some fn; codec := Some c; ext := Some (split_dot_last fn);
       proc := None |} /\
  close (snd run) = (Ok tt, snd run) /\
  exists msg, write_frames data (snd run) = (Raise (AttributeError msg), snd run).
Proof.
  intros start run. unfold run. rewrite construct_run, start. simpl.
  unfold constructed. rewrite start.
  repeat split; try reflexivity.
  eexists. reflexivity.
Qed.

Lemma construction_failure_witness :
  let run := FFMPEG_AudioWriter "ffmpeg" "posix" "out.mp3" 44100 2 2 "libmp3lame"
               None None None None (world missing_binary) in
  fst run = Raise (IOError "[Errno 2] No such file or directory: 'ffmpeg'") /\
  events (snd run) = events (world missing_binary) /\
  next_pid (snd run) = next_pid (world missing_binary) /\
  files (snd run) = files (world missing_binary) /\
  self (snd run)
  = {| logfile := Some PIPE;
       filename := Some "out.mp3"; codec := Some "libmp3lame";
       ext := Some (split_dot_last "out.mp3"); proc := None |} /\
  close (snd run) = (Ok tt, snd run) /\
  exists msg, write_frames [Byte.x00] (snd run)
              = (Raise (AttributeError msg), snd run).
Proof.
  exact (construction_failure "ffmpeg" "posix" "out.mp3" 44100 2 2 "libmp3lame"
           None None None None (world missing_binary) _ [Byte.x00] eq_refl).
Defined.

(** ** Failures around a failed write *)

(** X3.  Once a write has failed and [write_frames] has raised its
    composite error, the standard input of the process is closed: a
    further [write_frames] raises the [ValueError] of a write to a closed
    file, which is not classified, and calls nothing: the process is not
    asked for its diagnostics a second time. *)
Theorem write_after_failed_write (s : State) (p : Popen) (lf : stream)
    (fn c e m : string) (d1 d2 : bytes) :
  live s p lf fn c e -> write_fails p m -> sink_readable s p ->
  let s1 := snd (write_frames d1 s) in
  write_frames d2 s1 = (Raise (ValueError "write to closed file"), s1).
Proof.
  intros L W R s1.
  destruct (write_frames_failure s p lf fn c e m d1 L W (readable_present s p R))
    as (x & s' & Hw & Hself & _).
  unfold s1. rewrite Hw. simpl snd.
  unfold write_frames, try_except, stdin_write. run. rewrite Hself. reflexivity.
Qed.

Lemma write_after_failed_write_witness :
  let s := snd (FFMPEG_AudioWriter "ffmpeg" "posix" "out.mp3" 44100 2 2
                  "not_a_real_codec" None None None None (world unknown_codec)) in
  let s1 := snd (write_frames full_buffer s) in
  write_frames full_buffer s1 = (Raise (ValueError "write to closed file"), s1).
Proof.
  intros s.
  apply (write_after_failed_write s (started (world unknown_codec) PIPE) PIPE
           "out.mp3" "not_a_real_codec" "mp3" "[Errno 32] Broken pipe").
  - vm_compute. repeat split; discriminate.
  - vm_compute. repeat split; try discriminate. eexists. reflexivity.
  - split; [left; vm_compute; discriminate | reflexivity].
Defined.

(** X4.  With an integer given as [logfile] (a descriptor, or
    [subprocess.DEVNULL]) the diagnostics are not captured and cannot be
    read back: when a write fails, [write_frames] has the process waited
    for through [communicate], then raises the [AttributeError] of
    [seek] on an integer instead of the composite error. *)
Theorem write_failure_descriptor_sink (s : State) (p : Popen) (z : Z)
    (fn c e m : string) (data : bytes) :
  live s p (IntVal z) fn c e -> write_fails p m -> stderr p = None ->
  exists s' p',
    write_frames data s
    = (Raise (AttributeError "'int' object has no attribute 'seek'"), s') /\
    events s' = (events s ++ [EvCommunicate (pid p)])%list /\
    proc (self s') = Some (Some p') /\
    returncode p' = Some (p_status p) /\ stdin p' = Some Closed /\
    files s' = files s.
Proof.
  intros (Hself & Hsink & _) (Hin & Hrc & _ & rest & Hw) Herr.
  destruct s as [w fs enc np evs]. simpl in Hself. subst w.
  destruct p as [n i er rc sink wr dg st]. simpl in *. subst i rc wr sink er.
  do 2 eexists. split; [reflexivity|]. simpl. repeat split; reflexivity.
Qed.

Lemma write_failure_descriptor_sink_witness :
  let s := snd (FFMPEG_AudioWriter "ffmpeg" "posix" "out.mp3" 44100 2 2
                  "not_a_real_codec" None None (Some DEVNULL) None
                  (world unknown_codec)) in
  let p := started (world unknown_codec) DEVNULL in
  exists s' p',
    write_frames full_buffer s
    = (Raise (AttributeError "'int' object has no attribute 'seek'"), s') /\
    events s' = (events s ++ [EvCommunicate (pid p)])%list /\
    proc (self s') = Some (Some p') /\
    returncode p' = Some (p_status p) /\ stdin p' = Some Closed /\
    files s' = files s.
Proof.
  intros s p.
  apply (write_failure_descriptor_sink s p (-3) "out.mp3" "not_a_real_codec" "mp3"
           "[Errno 32] Broken pipe").
  - vm_compute. repeat split; discriminate.
  - vm_compute. repeat split; try discriminate. eexists. reflexivity.
  - reflexivity.
Defined.

(** X5.  When the log file the writer was given has been closed by its
    owner, a failed write cannot be explained either: the process is
    waited for, and reading the file back raises the [ValueError] of an
    operation on a closed file, which [write_frames] lets through in
    place of the composite error. *)
Theorem write_failure_closed_log (s : State) (p : Popen) (h : nat) (f : File)
    (fn c e m : string) (data : bytes) :
  live s p (FileObj h) fn c e -> write_fails p m ->
  nth_error (files s) h = Some f -> f_closed f = true ->
  exists s' p',
    write_frames data s = (Raise closed_file_error, s') /\
    events s' = (events s ++ [EvCommunicate (pid p)])%list /\
    proc (self s') = Some (Some p') /\
    returncode p' = Some (p_status p) /\ stdin p' = Some Closed.
Proof.
  intros (Hself & Hsink & _ & Hfile & _) (Hin & Hrc & _ & rest & Hw) Hf Hc.
  specialize (Hfile eq_refl).
  destruct s as [w fs enc np evs]. simpl in Hself. subst w.
  destruct p as [n i er rc sink wr dg st]. simpl in *. subst i rc wr sink er.
  pose proof (nth_error_in_range _ _ _ _ Hf) as Hh.
  do 2 eexists. split.
  - unfold write_frames, try_except, stdin_write, on_write_error, communicate,
      reap, print_to, printed, logfile_seek, logfile_read, file_seek, file_read,
      file_obj, put_file, decode.
    run. crunch. run. crunch. rewrite Hf. crunch.
    rewrite nth_error_set_nth_same by assumption. crunch.
    rewrite Hc. reflexivity.
  - simpl. repeat split; reflexivity.
Qed.

Lemma write_failure_closed_log_witness :
  let before := {| self := blank;
                   files := [{| f_path := "out.mp3.log"; f_binary := false;
                                f_contents := ""; f_pos := 0; f_closed := false |}];
                   encoder := unknown_codec; next_pid := 0; events := [] |} in
  let constructed :=
    snd (FFMPEG_AudioWriter "ffmpeg" "posix" "out.mp3" 44100 2 2
           "not_a_real_codec" None None (Some (FileObj 0)) None before) in
  let s := snd (file_close 0 constructed) in
  let p := started before (FileObj 0) in
  exists s' p',
    write_frames full_buffer s = (Raise closed_file_error, s') /\
    events s' = (events s ++ [EvCommunicate (pid p)])%list /\
    proc (self s') = Some (Some p') /\
    returncode p' = Some (p_status p) /\ stdin p' = Some Closed.
Proof.
  intros before constructed s p.
  apply (write_failure_closed_log s p 0
           {| f_path := "out.mp3.log"; f_binary := false; f_contents := "";
              f_pos := 0; f_closed := true |}
           "out.mp3" "not_a_real_codec" "mp3" "[Errno 32] Broken pipe").
  - vm_compute. repeat split; discriminate.
  - vm_compute. repeat split; try discriminate. eexists. reflexivity.
  - reflexivity.
  - reflexivity.
Defined.

(** ** Sessions *)

Lemma accepts_all_head (script : list (option exn)) :
  accepts_all script = true ->
  hd None script = None /\ accepts_all (tl script) = true.
Proof.
  destruct script as [|[x|] rest]; simpl; auto. discriminate.
Qed.

Lemma write_all_accepted (datas : list bytes) :
  forall (s : State) (p : Popen) (lf : stream) (fn c e : string),
  ready s p lf fn c e -> accepts_all (p_writes p) = true ->
  exists s' p',
    write_all (map Ok datas) s = (Ok tt, s') /\
    steady s s' p p' (map (EvStdinWrite (pid p)) datas) /\
    stdin_closes p'.
Proof.
  induction datas as [|d datas IH]; intros s p lf fn c e Hr Ha;
    pose proof Hr as ((Hself & _ & _ & _ & Hin0) & Hin & _);
    assert (Hp : proc (self s) = Some (Some p)) by (rewrite Hself; reflexivity);
    destruct (accepts_all_head _ Ha) as (Hhd & Htl).
  - exists s, p. split; [reflexivity|]. split; [now apply steady_refl|].
    right. auto.
  - simpl. unfold bind. rewrite (write_frames_accepted s p d Hp Hin Hhd).
    destruct (IH _ _ _ _ _ _ (ready_after_write s p lf fn c e d Hr) Htl)
      as (s' & p' & Hw & Hst & Hcl).
    exists s', p'. split; [exact Hw|]. split; [|exact Hcl].
    change (EvStdinWrite (pid p) d :: map (EvStdinWrite (pid p)) datas)
      with ([EvStdinWrite (pid p) d] ++ map (EvStdinWrite (pid p)) datas)%list.
    eapply steady_trans; [now apply steady_accepted | exact Hst].
Qed.

(** X6.  When the encoder starts and accepts every write and the flush
    of the closing of its standard input, and the frame source yields
    its chunks without raising, the session returns
    normally and what it has done is, in this order: open the log file
    if one is asked for, notify the start, start the encoder, write every
    chunk once and in the order of the source, close the standard input
    of the process, close the diagnostic pipe if the writer owns it,
    wait for the process, close the log file, notify the end.  The
    writer holds no process afterwards. *)
Theorem session_writes_in_order (bin os : string) (clip : AudioClip) (fn : string)
    (fps nb bs : Z) (c : string) (br : option string) (wl : bool)
    (ps : option (list string)) (s : State) (datas : list bytes) :
  enc_start (encoder s) = None ->
  accepts_all (enc_writes (encoder s)) = true ->
  iter_chunks clip bs nb fps = map Ok datas ->
  let n := next_pid s in
  let h := List.length (files s) in
  exists s',
    ffmpeg_audiowrite bin os clip fn fps nb bs c br wl ps s = (Ok tt, s') /\
    proc (self s') = Some None /\
    events s'
    = (events s ++ opening bin os fn fps nb (nchannels clip) c br wl ps s
       ++ map (EvStdinWrite n) datas
       ++ [EvStdinClose n]
       ++ (if wl then [] else [EvStderrClose n])
       ++ [EvWait n]
       ++ (if wl then [EvFileClose h] else [])
       ++ [EvLogger "MoviePy - Done."])%list.
Proof.
  intros start accepts source n h. rewrite session_unfold, source. fold h.
  destruct (session_start_facts fn wl s) as (Henc & Hpid & Hev & Hnew & Hold).
  fold h in Hev, Hnew.
  set (sB := session_start fn wl s) in *. clearbody sB.
  set (lf := if wl then Some (FileObj h) else None).
  set (sink := if wl then FileObj h else PIPE).
  assert (Hsink : match lf with None => PIPE | Some l => l end = sink)
    by (unfold lf, sink; destruct wl; reflexivity).
  assert (startB : enc_start (encoder sB) = None) by (rewrite Henc; exact start).
  assert (Hlf : lf = None \/
                exists k f, lf = Some (FileObj k) /\ nth_error (files sB) k = Some f /\
                            f_closed f = false).
  { unfold lf. destruct wl; [right|now left].
    exists h. eexists. split; [reflexivity|]. split; [now apply Hnew|reflexivity]. }
  pose proof (construct_ready bin os fn fps nb (nchannels clip) c br None lf ps sB
                startB Hlf) as Hready.
  cbv zeta in Hready. rewrite Hsink in Hready.
  pose proof (construct_run bin os fn fps nb (nchannels clip) c br None lf ps sB)
    as Hcons.
  cbv zeta in Hcons. rewrite startB, Hsink in Hcons.
  unfold bind at 1. rewrite Hcons. rewrite Hcons in Hready. simpl snd in Hready.
  set (sC := {| self := constructed sB fn c lf; files := files sB;
                encoder := encoder sB; next_pid := S (next_pid sB);
                events := _ |}) in *.
  assert (acceptsB : accepts_all (p_writes (started sB sink)) = true)
    by (simpl; rewrite Henc; exact accepts).
  destruct (write_all_accepted datas sC (started sB sink) sink fn c
              (split_dot_last fn) Hready acceptsB)
    as (s2 & p2 & Hw & Hst & Hcl).
  destruct Hst as (S1 & S2 & S3 & S4 & S5 & S6 & S7 & S8 & S9).
  simpl pid in S5, S2. rewrite Hpid in S5, S2. fold n in S5, S2.
  assert (HevC : events sC
                 = (events s ++ opening bin os fn fps nb (nchannels clip) c br wl ps s)%list).
  { unfold sC, opening. simpl events. rewrite Hev, Hpid. fold h. fold sink.
    rewrite <- !app_assoc. reflexivity. }
  assert (Hp2 : proc (self s2) = Some (Some p2)) by (rewrite S1; reflexivity).
  assert (Hrel : release_calls p2
                 = ([EvStdinClose n] ++ (if wl then [] else [EvStderrClose n])
                    ++ [EvWait n])%list).
  { unfold release_calls. rewrite S2.
    assert (E : stderr p2 = None <-> wl = true).
    { rewrite S4. unfold started, sink. simpl. destruct wl; simpl; split; congruence. }
    destruct wl.
    - rewrite (proj2 E eq_refl). reflexivity.
    - destruct (stderr p2); [reflexivity|]. destruct E as [E _].
      specialize (E eq_refl). discriminate. }
  unfold bind at 1. rewrite Hw.
  destruct (close_live s2 p2 Hp2 Hcl) as (s3 & Hc & C1 & C2 & C3 & C4 & C5).
  unfold bind at 1. rewrite Hc.
  assert (Hev3 : events s3
                 = (events s ++ opening bin os fn fps nb (nchannels clip) c br wl ps s
                    ++ map (EvStdinWrite n) datas
                    ++ [EvStdinClose n] ++ (if wl then [] else [EvStderrClose n])
                    ++ [EvWait n])%list).
  { rewrite C2, S5, HevC, Hrel, <- !app_assoc. reflexivity. }
  destruct wl.
  - assert (Hf2 : exists f, nth_error (files s2) h = Some f).
    { destruct S7 as (_ & K). destruct (K h _ (Hnew eq_refl)) as (f & Hf & _).
      eauto. }
    destruct Hf2 as (f2 & Hf2).
    destruct C3 as (_ & K). destruct (K h f2 Hf2) as (f3 & Hf3 & _).
    unfold bind at 1. rewrite (file_close_run s3 h f3 Hf3).
    eexists. split; [reflexivity|].
    cbn [self events files add_event set_files set_self]. rewrite C1.
    split; [reflexivity|]. rewrite Hev3, <- !app_assoc. reflexivity.
  - unfold bind at 1. unfold ret, emit, modify.
    eexists. split; [reflexivity|].
    cbn [self events files add_event set_files set_self]. rewrite C1.
    split; [reflexivity|]. rewrite Hev3, <- !app_assoc. reflexivity.
Qed.

Lemma session_writes_in_order_witness :
  exists s',
    ffmpeg_audiowrite "ffmpeg" "posix" three_chunks "out.mp3" 44100 2 2000
      "libmp3lame" None false None (world healthy) = (Ok tt, s') /\
    proc (self s') = Some None /\
    events s'
    = (events (world healthy)
       ++ opening "ffmpeg" "posix" "out.mp3" 44100 2 (nchannels three_chunks)
            "libmp3lame" None false None (world healthy)
       ++ map (EvStdinWrite 0)
            [[Byte.x00; Byte.x01]; [Byte.x02; Byte.x03]; [Byte.x04; Byte.x05]]
       ++ [EvStdinClose 0]
       ++ [EvStderrClose 0]
       ++ [EvWait 0]
       ++ []
       ++ [EvLogger "MoviePy - Done."])%list.
Proof.
  exact (session_writes_in_order "ffmpeg" "posix" three_chunks "out.mp3" 44100 2
           2000 "libmp3lame" None false None (world healthy)
           [[Byte.x00; Byte.x01]; [Byte.x02; Byte.x03]; [Byte.x04; Byte.x05]]
           eq_refl eq_refl eq_refl).
Defined.

(** X7.  The finalizer after a session whose encoder had started.  After
    a normal completion it calls nothing.  After a failure the writer
    still holds its process, and the finalizer is a call of [close] on
    it: when closing the standard input goes through, as it does when
    [write_frames] has had the process waited for, the process is
    released and the writer holds none; when it fails, the finalizer
    raises, the process is not waited for and the writer keeps it. *)
Theorem finalizer_after_session (bin os : string) (clip : AudioClip) (fn : string)
    (fps nb bs : Z) (c : string) (br : option string) (wl : bool)
    (ps : option (list string)) (s : State) :
  enc_start (encoder s) = None ->
  let run := ffmpeg_audiowrite bin os clip fn fps nb bs c br wl ps s in
  (fst run = Ok tt -> __del__ (snd run) = (Ok tt, snd run)) /\
  (forall x, fst run = Raise x ->
     exists p,
       proc (self (snd run)) = Some (Some p) /\ pid p = next_pid s /\
       (stdin_closes p ->
        exists s'',
          __del__ (snd run) = (Ok tt, s'') /\ no_handle s'' /\
          events s'' = (events (snd run) ++ release_calls p)%list) /\
       (forall e, stdin_close_fails p e ->
        exists s'',
          __del__ (snd run) = (Raise e, s'') /\ ~ no_handle s'' /\
          events s'' = (events (snd run) ++ [EvStdinClose (pid p)])%list)).
Proof.
  intros start run. unfold __del__.
  assert (held : forall t p, proc (self t) = Some (Some p) ->
            (stdin_closes p ->
             exists s'',
               close t = (Ok tt, s'') /\ no_handle s'' /\
               events s'' = (events t ++ release_calls p)%list) /\
            (forall e, stdin_close_fails p e ->
             exists s'',
               close t = (Raise e, s'') /\ ~ no_handle s'' /\
               events s'' = (events t ++ [EvStdinClose (pid p)])%list)).
  { intros t p Hp. split.
    - intros Hc. destruct (close_live t p Hp Hc) as (s'' & H & Hself & Hev & _).
      exists s''. split; [exact H|]. split; [right; rewrite Hself; reflexivity|].
      exact Hev.
    - intros e Hf. rewrite (close_fails t p e Hp Hf). eexists.
      split; [reflexivity|]. split; [|reflexivity].
      intros [H|H]; discriminate. }
  destruct (session_loop bin os clip fn fps nb bs c br wl ps s start)
    as (r & s2 & p2 & evs & Hw & Hrun & Hp2 & Hin & Hpid & _ & _ & _ & Hfile).
  fold run in Hrun.
  destruct r as [[]|x].
  - destruct (session_end wl (List.length (files s)) s2 p2 (fn ++ ".log") Hp2 Hin Hfile)
      as [(_ & s' & Hend & Hproc & _)|(e & Hf & Hend)];
      rewrite Hend in Hrun; rewrite Hrun; simpl fst; simpl snd.
    + split; [intros _; apply close_idle; right; exact Hproc | discriminate].
    + split; [discriminate|]. intros x _.
      exists (half_closed p2). split; [reflexivity|]. split; [exact Hpid|].
      now apply held.
  - rewrite Hrun. simpl fst. simpl snd. split; [discriminate|].
    intros y _. exists p2. split; [exact Hp2|]. split; [exact Hpid|].
    now apply held.
Qed.

Lemma finalizer_after_session_witness :
  let run := ffmpeg_audiowrite "ffmpeg" "posix" large_chunks "out.mp3" 44100 2
               2000 "not_a_real_codec" None false None (world unknown_codec) in
  exists s'',
    __del__ (snd run) = (Ok tt, s'') /\ no_handle s'' /\
    events s''
    = (events (snd run) ++ [EvStdinClose 0; EvStderrClose 0; EvWait 0])%list.
Proof.
  intros run.
  destruct (finalizer_after_session "ffmpeg" "posix" large_chunks "out.mp3" 44100 2
              2000 "not_a_real_codec" None false None (world unknown_codec) eq_refl)
    as (_ & failed).
  assert (raised : exists x, fst run = Raise x)
    by (eexists; vm_compute; reflexivity).
  destruct raised as (x & Hx).
  destruct (failed x Hx) as (p & Hp & _ & released & _).
  assert (Ep : p = exited (with_writes [] (started (world unknown_codec) PIPE))).
  { assert (Some (Some p)
            = Some (Some (exited (with_writes [] (started (world unknown_codec) PIPE)))))
      as E by (rewrite <- Hp; vm_compute; reflexivity).
    congruence. }
  subst p. destruct released as (s'' & Hdel & Hnone & Hev).
  - left. reflexivity.
  - exists s''. split; [exact Hdel|]. split; [exact Hnone | exact Hev].
Defined.

(** ** More on the crop effect *)

Lemma or_else_int (v d : Z) :
  Crop.or_else (Some (Crop.Int v)) (Crop.Int d)
  = Crop.Int (if (v =? 0)%Z then d else v).
Proof.
  unfold Crop.or_else, Crop.truthy. destruct (v =? 0)%Z; reflexivity.
Qed.


Lemma zero_or (v : Z) : (if (v =? 0)%Z then 0%Z else v) = v.
Proof. destruct (Z.eqb_spec v 0); [subst; reflexivity | reflexivity]. Qed.

Lemma length_slice (A : Type) (l : list A) (a b : Z) :
  (0 <= a <= b)%Z -> (b <= Z.of_nat (List.length l))%Z ->
  List.length (Crop.slice l a b) = Z.to_nat (b - a).
Proof.
  intros Hab Hb. unfold Crop.slice, Crop.clamp.
  destruct (Z.ltb_spec a 0); [lia|]. destruct (Z.ltb_spec b 0); [lia|].
  rewrite !Z.min_l by lia.
  rewrite length_firstn, length_skipn. lia.
Qed.

Lemma slice_run_of (A : Type) (l : list A) (a b : Z) :
  run_of l (Crop.slice l a b).
Proof.
  unfold run_of, Crop.slice.
  set (n := Z.to_nat (_ - _)). set (lo := Z.to_nat _).
  exists (firstn lo l), (skipn n (skipn lo l)).
  now rewrite firstn_skipn, firstn_skipn.
Qed.

Lemma Ok_inj (A : Type) (x y : A) : Ok x = Ok y -> y = x.
Proof. congruence. Qed.

(** The frames of a crop, once the indices of its slices are known. *)
Lemma crop_frame_indices (A : Type) (b : Crop.bounds) (f out : Crop.frame A) :
  Crop.crop_frame b f = Ok out ->
  exists r1 r2 c1 c2,
    Crop.indices b = Ok (r1, r2, c1, c2) /\
    out = map (fun row => Crop.slice row c1 c2) (Crop.slice f r1 r2).
Proof.
  unfold Crop.crop_frame.
  destruct (Crop.indices b) as [[[[r1 r2] c1] c2]|e]; simpl; [|discriminate].
  intros H. apply Ok_inj in H. exists r1, r2, c1, c2. auto.
Qed.

(** The bounds of a crop without a centre: four [int]s. *)
Lemma crop_bounds_uncentred (clip : Crop.Clip) (a : Crop.Args) :
  Crop.truthy (Crop.num (Crop.x_center a)) = false ->
  Crop.truthy (Crop.num (Crop.y_center a)) = false ->
  Crop.crop_bounds clip a
  = Ok (Crop.or_else
          (Crop.num (fst (Crop.combine (Crop.x1 a) (Crop.x2 a) (Crop.width a))))
          (Crop.Int 0),
        Crop.or_else
          (Crop.num (fst (Crop.combine (Crop.y1 a) (Crop.y2 a) (Crop.height a))))
          (Crop.Int 0),
        Crop.or_else
          (Crop.num (snd (Crop.combine (Crop.x1 a) (Crop.x2 a) (Crop.width a))))
          (Crop.Int (fst (Crop.size clip))),
        Crop.or_else
          (Crop.num (snd (Crop.combine (Crop.y1 a) (Crop.y2 a) (Crop.height a))))
          (Crop.Int (snd (Crop.size clip)))).
Proof.
  intros Hx Hy. unfold Crop.crop_bounds.
  destruct (Crop.combine (Crop.x1 a) (Crop.x2 a) (Crop.width a)) as [vx1 vx2].
  destruct (Crop.combine (Crop.y1 a) (Crop.y2 a) (Crop.height a)) as [vy1 vy2].
  rewrite (centre_without_centre _ _ _ _ Hx), (centre_without_centre _ _ _ _ Hy).
  reflexivity.
Qed.

(** X8.  A rectangle given by its four corners inside the frame, with
    [0 <= x1 <= x2 <= w], [0 <= y1 <= y2 <= h] and [x2], [y2] not zero,
    is what [crop] keeps: the rows [y1] to [y2] of the frame, each cut
    to its columns [x1] to [x2], so that the new frame has [y2 - y1]
    rows of [x2 - x1] pixels. *)
Theorem crop_rectangle (A : Type) (clip : Crop.Clip) (a b c d : Z) :
  (0 <= a <= c)%Z -> (0 < c <= fst (Crop.size clip))%Z ->
  (0 <= b <= d)%Z -> (0 < d <= snd (Crop.size clip))%Z ->
  exists g,
    Crop.crop (A:=A) clip (rectangle a b c d) = Ok g /\
    forall f, Crop.frame_of clip f ->
      exists out,
        g f = Ok out /\
        out = map (fun row => Crop.slice row a c) (Crop.slice f b d) /\
        List.length out = Z.to_nat (d - b) /\
        Forall (fun row => List.length row = Z.to_nat (c - a)) out.
Proof.
  intros Hac Hc Hbd Hd.
  assert (bounds : Crop.crop_bounds clip (rectangle a b c d)
                   = Ok (Crop.Int a, Crop.Int b, Crop.Int c, Crop.Int d)).
  { rewrite crop_bounds_uncentred by reflexivity.
    cbn [rectangle Crop.combine Crop.x1 Crop.x2 Crop.y1 Crop.y2 Crop.width
         Crop.height Crop.num option_map Crop.truthy andb fst snd].
    rewrite !or_else_int, !zero_or.
    replace (c =? 0)%Z with false by (symmetry; apply Z.eqb_neq; lia).
    replace (d =? 0)%Z with false by (symmetry; apply Z.eqb_neq; lia).
    reflexivity. }
  unfold Crop.crop. rewrite bounds.
  eexists. split; [reflexivity|]. intros f [rows cols].
  rewrite crop_frame_ints. eexists. split; [reflexivity|].
  split; [reflexivity|]. split.
  - rewrite length_map. apply length_slice; lia.
  - apply Forall_map.
    assert (kept : Forall (fun row => Z.of_nat (List.length row) = fst (Crop.size clip))
                     (Crop.slice f b d)).
    { destruct (slice_run_of _ f b d) as (before & after & E).
      rewrite E in cols. apply Forall_app in cols. destruct cols as (_ & cols).
      apply Forall_app in cols. tauto. }
    eapply Forall_impl; [|exact kept].
    intros row Hrow. cbv beta in Hrow. apply length_slice; lia.
Qed.

Lemma crop_rectangle_witness :
  let clip := {| Crop.size := (4, 3)%Z |} in
  exists g,
    Crop.crop (A:=nat) clip (rectangle 1 1 3 3) = Ok g /\
    g [[1; 2; 3; 4]; [5; 6; 7; 8]; [9; 10; 11; 12]] = Ok [[6; 7]; [10; 11]].
Proof.
  intros clip.
  destruct (crop_rectangle nat clip 1 1 3 3) as (g & Hg & Hf);
    [simpl; lia | simpl; lia | simpl; lia | simpl; lia |].
  exists g. split; [exact Hg|].
  destruct (Hf [[1; 2; 3; 4]; [5; 6; 7; 8]; [9; 10; 11; 12]]) as (out & E & -> & _).
  - split; [reflexivity|]. repeat constructor.
  - rewrite E. reflexivity.
Defined.

(** X9.  Whatever its arguments, when [crop] returns and a frame of the
    new clip is obtained, that frame is a block of the old one: its rows
    come from a run of consecutive rows of the frame, in their order,
    and each is a run of consecutive pixels of the row it comes from.
    [crop] never adds a row or a pixel. *)
Theorem crop_keeps_a_block (A : Type) (clip : Crop.Clip) (a : Crop.Args)
    (g : Crop.frame A -> res (Crop.frame A)) (f out : Crop.frame A) :
  Crop.crop clip a = Ok g -> g f = Ok out ->
  exists kept,
    run_of f kept /\
    Forall2 (fun row row' => run_of row row') kept out /\
    List.length out <= List.length f.
Proof.
  unfold Crop.crop. destruct (Crop.crop_bounds clip a) as [b|e]; [|discriminate].
  intros H. apply Ok_inj in H. subst g. intros Hout.
  destruct (crop_frame_indices A b f out Hout) as (r1 & r2 & c1 & c2 & _ & ->).
  exists (Crop.slice f r1 r2).
  split; [apply slice_run_of|]. split.
  - clear Hout. induction (Crop.slice f r1 r2) as [|row rows IH]; simpl.
    + constructor.
    + constructor; [apply slice_run_of | exact IH].
  - rewrite length_map.
    destruct (slice_run_of _ f r1 r2) as (p & q & E).
    rewrite E at 2. rewrite !length_app. lia.
Qed.

Lemma crop_keeps_a_block_witness :
  let clip := {| Crop.size := (4, 3)%Z |} in
  let a := Crop.with_width (Some 2%Z) (Crop.with_x_center (Some 2%Z) Crop.no_args) in
  let f := [[1; 2; 3; 4]; [5; 6; 7; 8]; [9; 10; 11; 12]] in
  exists g out kept,
    Crop.crop (A:=nat) clip a = Ok g /\ g f = Ok out /\
    out = [[2; 3]; [6; 7]; [10; 11]] /\
    run_of f kept /\
    Forall2 (fun row row' => run_of row row') kept out /\
    List.length out <= List.length f.
Proof.
  intros clip a f.
  assert (bounds : exists b, Crop.crop_bounds clip a = Ok b)
    by (eexists; vm_compute; reflexivity).
  destruct bounds as (b & Hb).
  assert (Hout : Crop.crop_frame b f = Ok [[2; 3]; [6; 7]; [10; 11]]).
  { vm_compute in Hb. apply Ok_inj in Hb. subst b. reflexivity. }
  assert (Hg : Crop.crop (A:=nat) clip a = Ok (Crop.crop_frame b))
    by (unfold Crop.crop; rewrite Hb; reflexivity).
  destruct (crop_keeps_a_block nat clip a (Crop.crop_frame b) f
              [[2; 3]; [6; 7]; [10; 11]] Hg Hout) as (kept & H).
  exists (Crop.crop_frame b), [[2; 3]; [6; 7]; [10; 11]], kept.
  split; [exact Hg|]. split; [exact Hout|]. split; [reflexivity | exact H].
Defined.

(** X10.  When [x1] and a [width] that is not zero are given and no
    [x_center] is, the right edge is [x1 + width], whatever was passed
    as [x2]: the two horizontal bounds are the [int]s [x1] and
    [x1 + width] (the width of the clip when that sum is zero), and
    these are the columns kept in every frame that is obtained. *)
Theorem crop_width_from_x1 (clip : Crop.Clip) (a : Crop.Args) (v w : Z)
    (b : Crop.bounds) :
  Crop.x1 a = Some v -> Crop.width a = Some w -> w <> 0%Z ->
  Crop.truthy (Crop.num (Crop.x_center a)) = false ->
  Crop.crop_bounds clip a = Ok b ->
  let right := if (v + w =? 0)%Z then fst (Crop.size clip) else (v + w)%Z in
  (exists by1 by2, b = (Crop.Int v, by1, Crop.Int right, by2)) /\
  (forall i, Crop.indices b = Ok i -> exists r1 r2, i = (r1, r2, v, right)).
Proof.
  intros Hx1 Hw Hw0 Hc Hb right.
  assert (Hcomb : Crop.combine (Crop.x1 a) (Crop.x2 a) (Crop.width a)
                  = (Some v, Some (v + w)%Z)).
  { unfold Crop.combine. rewrite Hx1, Hw, truthy_num.
    replace (w =? 0)%Z with false by (symmetry; now apply Z.eqb_neq).
    reflexivity. }
  assert (shape : exists by1 by2, b = (Crop.Int v, by1, Crop.Int right, by2)).
  { unfold Crop.crop_bounds in Hb. rewrite Hcomb in Hb.
    destruct (Crop.combine (Crop.y1 a) (Crop.y2 a) (Crop.height a)) as [vy1 vy2].
    rewrite (centre_without_centre _ _ _ _ Hc) in Hb.
    destruct (Crop.centre (Crop.num vy1) (Crop.num vy2) (Crop.height a)
                (Crop.y_center a)) as [[uy1 uy2]|e]; [|discriminate].
    apply Ok_inj in Hb. subst b.
    cbn [Crop.num option_map]. rewrite !or_else_int, zero_or.
    do 2 eexists. reflexivity. }
  split; [exact shape|].
  destruct shape as (by1 & by2 & ->). intros i. unfold Crop.indices.
  destruct (Crop.int by1) as [r1|e1]; simpl; [|discriminate].
  destruct (Crop.int by2) as [r2|e2]; simpl; [|discriminate].
  intros H. apply Ok_inj in H. subst i. exists r1, r2. reflexivity.
Qed.

Lemma crop_width_from_x1_witness :
  let clip := {| Crop.size := (640, 480)%Z |} in
  let a := Crop.with_width (Some 200%Z) (rectangle 10 0 600 0) in
  exists b,
    Crop.crop_bounds clip a = Ok b /\
    Crop.indices b = Ok (0, 480, 10, 210)%Z.
Proof.
  intros clip a.
  destruct (crop_width_from_x1 clip a 10 200
              (Crop.Int 10, Crop.Int 0, Crop.Int 210, Crop.Int 480))
    as ((by1 & by2 & shape) & columns); try reflexivity; [discriminate|].
  eexists. split; reflexivity.
Defined.



(** X12.  The centring is done on [float]s, and an [int] beyond their
    range is an error where the same [int] as a corner is not:
    [crop(clip, x_center=2**1024, width=2)] raises an [OverflowError],
    [crop(clip, x1=2**1024)] returns.  Beyond 2**53 the [float]s are
    further apart than the [int]s: around the centre [2**53 + 1] a
    [width] of 2 keeps the columns from [2**53 - 1] to [2**53], one
    column where two are asked for. *)
Theorem crop_centre_in_floats (clip : Crop.Clip) :
  Crop.crop_bounds clip
    (Crop.with_width (Some 2%Z) (Crop.with_x_center (Some (2 ^ 1024)%Z) Crop.no_args))
  = Raise (OverflowError "int too large to convert to float") /\
  Crop.crop_bounds clip (only_x1 (2 ^ 1024))
  = Ok (Crop.Int (2 ^ 1024), Crop.Int 0, Crop.Int (fst (Crop.size clip)),
        Crop.Int (snd (Crop.size clip))) /\
  exists bx1 bx2,
    Crop.crop_bounds clip
      (Crop.with_width (Some 2%Z)
         (Crop.with_x_center (Some (2 ^ 53 + 1)%Z) Crop.no_args))
    = Ok (Crop.Float bx1, Crop.Int 0, Crop.Float bx2, Crop.Int (snd (Crop.size clip))) /\
    Crop.int (Crop.Float bx1) = Ok (2 ^ 53 - 1)%Z /\
    Crop.int (Crop.Float bx2) = Ok (2 ^ 53)%Z.
Proof.
  split; [|split].
  - unfold Crop.crop_bounds.
    cbn [Crop.with_width Crop.with_x_center Crop.no_args Crop.x1 Crop.x2 Crop.y1
         Crop.y2 Crop.width Crop.height Crop.x_center Crop.y_center].
    change (Crop.combine None None (Some 2%Z)) with (@None Z, @None Z).
    change (Crop.combine None None None) with (@None Z, @None Z).
    cbv iota beta.
    assert (E : Crop.centre (Crop.num None) (Crop.num None) (Some 2%Z)
                  (Some (2 ^ 1024)%Z)
                = Raise (OverflowError "int too large to convert to float"))
      by (vm_compute; reflexivity).
    rewrite E. reflexivity.
  - rewrite crop_bounds_uncentred by reflexivity.
    cbn [only_x1 Crop.combine Crop.x1 Crop.x2 Crop.y1 Crop.y2 Crop.width
         Crop.height Crop.num option_map Crop.truthy andb fst snd].
    rewrite or_else_int. reflexivity.
  - unfold Crop.crop_bounds.
    cbn [Crop.with_width Crop.with_x_center Crop.no_args Crop.x1 Crop.x2 Crop.y1
         Crop.y2 Crop.width Crop.height Crop.x_center Crop.y_center].
    change (Crop.combine None None (Some 2%Z)) with (@None Z, @None Z).
    change (Crop.combine None None None) with (@None Z, @None Z).
    cbv iota beta.
    assert (E : Crop.centre (Crop.num None) (Crop.num None) (Some 2%Z)
                  (Some (2 ^ 53 + 1)%Z)
                = Ok (Some (Crop.Float (S754_finite false 9007199254740991 0)),
                      Some (Crop.Float (S754_finite false 4503599627370496 1))))
      by (vm_compute; reflexivity).
    rewrite E.
    change (Crop.centre (Crop.num None) (Crop.num None) None None)
      with (@Ok (option Crop.number * option Crop.number) (None, None)).
    cbv iota beta.
    do 2 eexists. split; [reflexivity|]. split; vm_compute; reflexivity.
Qed.

(** X13.  A negative [x1] counts from the right edge, as every index of
    a slice does: [crop(clip, x1=-k)] with [0 < k <= w] keeps the last
    [k] columns of every row, and all the rows. *)
Theorem crop_negative_x1 (A : Type) (clip : Crop.Clip) (k : Z) :
  (0 < k <= fst (Crop.size clip))%Z ->
  exists g,
    Crop.crop (A:=A) clip (only_x1 (- k)) = Ok g /\
    forall f, Crop.frame_of clip f ->
      g f = Ok (map (skipn (Z.to_nat (fst (Crop.size clip) - k))) f).
Proof.
  intros Hk.
  assert (bounds : Crop.crop_bounds clip (only_x1 (- k))
                   = Ok (Crop.Int (- k), Crop.Int 0,
                         Crop.Int (fst (Crop.size clip)),
                         Crop.Int (snd (Crop.size clip)))).
  { rewrite crop_bounds_uncentred by reflexivity.
    cbn [only_x1 Crop.combine Crop.x1 Crop.x2 Crop.y1 Crop.y2 Crop.width
         Crop.height Crop.num option_map Crop.truthy andb fst snd].
    rewrite or_else_int, zero_or. reflexivity. }
  unfold Crop.crop. rewrite bounds.
  eexists. split; [reflexivity|]. intros f [rows cols].
  rewrite crop_frame_ints. f_equal.
  rewrite <- rows, slice_whole. clear rows.
  induction cols as [|row f' Hrow _ IH]; [reflexivity|].
  simpl. f_equal; [|exact IH].
  unfold Crop.slice, Crop.clamp. rewrite Hrow.
  destruct (Z.ltb_spec (- k) 0); [|lia].
  destruct (Z.ltb_spec (fst (Crop.size clip)) 0); [lia|].
  rewrite Z.max_l, Z.min_id by lia.
  replace (- k + fst (Crop.size clip))%Z with (fst (Crop.size clip) - k)%Z by lia.
  apply firstn_all2. rewrite length_skipn. lia.
Qed.

Lemma crop_negative_x1_witness :
  let clip := {| Crop.size := (4, 2)%Z |} in
  exists g,
    Crop.crop (A:=nat) clip (only_x1 (- 1)) = Ok g /\
    g [[1; 2; 3; 4]; [5; 6; 7; 8]] = Ok [[4]; [8]].
Proof.
  intros clip.
  destruct (crop_negative_x1 nat clip 1) as (g & Hg & Hf); [simpl; lia|].
  exists g. split; [exact Hg|].
  rewrite Hf; [reflexivity|]. split; [reflexivity|]. repeat constructor.
Defined.

(** X14.  When the encoder cannot be started, the session raises the
    error of the start itself, after it has opened the log file, if one
    was asked for, and notified the start: no chunk is written, the end
    is not notified, and the writer has no process to release. *)
Theorem session_start_failure (bin os : string) (clip : AudioClip) (fn : string)
    (fps nb bs : Z) (c : string) (br : option string) (wl : bool)
    (ps : option (list string)) (s : State) (x : exn) :
  enc_start (encoder s) = Some x ->
  let run := ffmpeg_audiowrite bin os clip fn fps nb bs c br wl ps s in
  fst run = Raise x /\
  no_handle (snd run) /\
  events (snd run)
  = (events s
     ++ (if wl then [EvOpen (fn ++ ".log") "w+" (List.length (files s))] else [])
     ++ [EvLogger ("MoviePy - Writing audio in " ++ fn)])%list /\
  close (snd run) = (Ok tt, snd run).
Proof.
  intros start run.
  destruct (session_not_started bin os clip fn fps nb bs c br wl ps s x start)
    as (s' & Hrun & Hproc & Hev & _).
  unfold run. rewrite Hrun. simpl.
  split; [reflexivity|]. split; [now left|]. split; [exact Hev|].
  apply close_idle. now left.
Qed.

Lemma session_start_failure_witness :
  let run := ffmpeg_audiowrite "ffmpeg" "posix" three_chunks "out.mp3" 44100 2
               2000 "libmp3lame" None true None (world missing_binary) in
  fst run = Raise (IOError "[Errno 2] No such file or directory: 'ffmpeg'") /\
  no_handle (snd run) /\
  events (snd run)
  = (events (world missing_binary)
     ++ [EvOpen "out.mp3.log" "w+" 0]
     ++ [EvLogger "MoviePy - Writing audio in out.mp3"])%list /\
  close (snd run) = (Ok tt, snd run).
Proof.
  exact (session_start_failure "ffmpeg" "posix" three_chunks "out.mp3" 44100 2
           2000 "libmp3lame" None true None (world missing_binary) _ eq_refl).
Defined.
